(** * Jewelry AR try-on backend: catalog and analytics handlers

    A shallow embedding of [backend/models.py], [backend/database.py] and
    [backend/main.py].  The request handlers of [main.py] are functions in a
    state-and-exception monad over the two MongoDB collections; the pydantic
    models of [models.py] are records that remember which fields were set, so
    that [.dict()] and [.dict(exclude_unset=True)] can both be written down.

    Conventions of the embedding:
    - Python [int] is [Z]; [datetime] values are [Z] (a point on the clock);
    - a Python [str] is its UTF-8 encoding, a [string] of bytes; lengths and
      slices count code points ([utf8_length], [utf8_take]);
    - the conversion rate is computed in binary64 with the operations of
      [SpecFloat] (precision 53, maximal exponent 1024); stored float fields
      ([price.amount], [revenue_generated]) are carried as rationals [Q];
    - the results of [nanoid.generate] and [datetime.utcnow] in one request are
      read from an environment [Env], which also tells how the interpreter
      formats a [(str, Enum)] member inside an f-string: as the value ("share")
      up to Python 3.10, as the member ("EventType.SHARE") from Python 3.11 on;
    - the skip and the limit of a query are sent as BSON integers: the driver
      refuses one that does not fit 64 bits; the integers inside documents
      are taken to fit;
    - the driver assigned [_id] of a document is not represented: the handlers
      only stringify it on the copy they return. *)

From Stdlib Require Import ZArith QArith Qround Qabs Lqa SpecFloat String Ascii List Lia.
From stdpp Require Import base option list sorting gmap strings.

Set Warnings "-register-all".

Local Open Scope Z_scope.

(** ** JSON-like values held in documents *)

Inductive value : Type :=
| VNull
| VBool (b : bool)
| VInt (n : Z)
| VFloat (q : Q)
| VStr (s : string)
| VDate (t : Z)
| VList (l : list value)
| VDict (d : list (string * value)).

Definition VOpt {A} (enc : A → value) (o : option A) : value :=
  match o with Some a => enc a | None => VNull end.

(** ** Python strings and numbers *)

(** A continuation byte of UTF-8: [10xxxxxx]. *)
Definition is_continuation (c : ascii) : bool :=
  match c with Ascii _ _ _ _ _ _ b6 b7 => b7 && negb b6 end.

(** [len(s)]: the number of code points. *)
Fixpoint utf8_length (s : string) : nat :=
  match s with
  | EmptyString => 0%nat
  | String c s' => if is_continuation c then utf8_length s' else S (utf8_length s')
  end.

(** [s[:n]]: the first [n] code points. *)
Fixpoint utf8_take (n : nat) (s : string) : string :=
  match s with
  | EmptyString => EmptyString
  | String c s' =>
      if is_continuation c then String c (utf8_take n s')
      else match n with
           | O => EmptyString
           | S n' => String c (utf8_take n' s')
           end
  end.

(** Interpreters differ on [format()] of a member of a [(str, Enum)] class:
    up to Python 3.10 it is the value, from Python 3.11 on it is the class
    and member name. *)
Inductive Python := Python_3_10 | Python_3_11.

(** An [int] as a binary64 operand, exactly. *)
Definition float_of_int (z : Z) : spec_float :=
  match z with
  | Z0 => S754_zero false
  | Zpos p => S754_finite false p 0
  | Zneg p => S754_finite true p 0
  end.

(** [a / b] on two [int]s: the correctly rounded quotient.  (Python raises
    [OverflowError] where the quotient leaves the binary64 range, which takes
    an operand of more than a thousand bits; the counters divided here are
    sums of BSON numbers.) *)
Definition true_divide (a b : Z) : spec_float :=
  SFdiv 53 1024 (float_of_int a) (float_of_int b).

Definition float_mul (x y : spec_float) : spec_float := SFmul 53 1024 x y.

(** The rational a finite binary64 number stands for, 0 for the others. *)
Definition float_value (x : spec_float) : Q :=
  match x with
  | S754_finite s m e =>
      let n := if s then Zneg m else Zpos m in
      match e with
      | Zneg k => n # (2 ^ k)%positive
      | _ => inject_Z (n * 2 ^ e)
      end
  | _ => 0%Q
  end.

(** The binary64 number nearest to a rational. *)
Definition nearest_float (q : Q) : spec_float :=
  SFdiv 53 1024 (float_of_int (Qnum q)) (float_of_int (Zpos (Qden q))).


(** ** models.py *)

(** A pydantic field: either left unset by the caller (the declared default
    applies) or given explicitly. *)
Inductive field (A : Type) : Type :=
| Unset
| Given (a : A).
Arguments Unset {A}.
Arguments Given {A} a.

Definition field_value {A} (default : A) (f : field A) : A :=
  match f with Unset => default | Given a => a end.

(** One entry of [model.dict(exclude_unset=...)]. *)
Definition dump {A} (exclude_unset : bool) (key : string) (enc : A → value)
    (default : A) (f : field A) : list (string * value) :=
  match f with
  | Given a => [(key, enc a)]
  | Unset => if exclude_unset then [] else [(key, enc default)]
  end.

Inductive JewelryType := EARRINGS | NECKLACE | RING | BRACELET.

Definition JewelryType_value (t : JewelryType) : string :=
  match t with
  | EARRINGS => "earrings" | NECKLACE => "necklace"
  | RING => "ring" | BRACELET => "bracelet"
  end.

Inductive JewelryStatus := DRAFT | ACTIVE | ARCHIVED.

Definition JewelryStatus_value (s : JewelryStatus) : string :=
  match s with DRAFT => "draft" | ACTIVE => "active" | ARCHIVED => "archived" end.

Inductive EventType := VIEW | TRY_ON | SHARE | CLICK | PURCHASE.

Definition EventType_value (e : EventType) : string :=
  match e with
  | VIEW => "view" | TRY_ON => "try_on" | SHARE => "share"
  | CLICK => "click" | PURCHASE => "purchase"
  end.

Definition EventType_name (e : EventType) : string :=
  match e with
  | VIEW => "VIEW" | TRY_ON => "TRY_ON" | SHARE => "SHARE"
  | CLICK => "CLICK" | PURCHASE => "PURCHASE"
  end.

(** [f"{member}"] for a member of [EventType], which pydantic keeps as the
    enum member. *)
Definition format_EventType (py : Python) (e : EventType) : string :=
  match py with
  | Python_3_10 => EventType_value e
  | Python_3_11 => "EventType." +:+ EventType_name e
  end.

Module PriceModel.
Record t := mk {
  amount : Q;
  currency : field string;
  discount : field (option Q) }.

Definition dict (exclude_unset : bool) (p : t) : list (string * value) :=
  [("amount", VFloat (amount p))]
  ++ dump exclude_unset "currency" VStr "NPR" (currency p)
  ++ dump exclude_unset "discount" (VOpt VFloat) None (discount p).

Definition valid (p : t) : Prop :=
  (0 <= amount p)%Q ∧
  match field_value None (discount p) with
  | Some d => (0 <= d)%Q ∧ (d <= 100)%Q
  | None => True
  end.
End PriceModel.

Module ARConfigModel.
Record t := mk {
  color : field string;
  size : field Z;
  position_offset : field (list (string * Z));
  landmarks : field (list Z);
  render_type : field string }.

(** [ARConfigModel()] *)
Definition new : t := mk Unset Unset Unset Unset Unset.

Definition enc_offset (d : list (string * Z)) : value :=
  VDict (map (λ kv, (kv.1, VInt kv.2)) d).

Definition dict (exclude_unset : bool) (a : t) : list (string * value) :=
  dump exclude_unset "color" VStr "#FFD700" (color a)
  ++ dump exclude_unset "size" VInt 30 (size a)
  ++ dump exclude_unset "position_offset" enc_offset [("x", 0); ("y", 0)]
       (position_offset a)
  ++ dump exclude_unset "landmarks" (λ l, VList (map VInt l)) [234; 454]
       (landmarks a)
  ++ dump exclude_unset "render_type" VStr "circle" (render_type a).

Definition valid (a : t) : Prop :=
  10 <= field_value 30 (size a) <= 100.
End ARConfigModel.

Module MetadataModel.
Record t := mk {
  material : field (option string);
  weight : field (option string);
  tags : field (list string);
  category : field (option string);
  subcategory : field (option string) }.

Definition new : t := mk Unset Unset Unset Unset Unset.

Definition dict (exclude_unset : bool) (m : t) : list (string * value) :=
  dump exclude_unset "material" (VOpt VStr) None (material m)
  ++ dump exclude_unset "weight" (VOpt VStr) None (weight m)
  ++ dump exclude_unset "tags" (λ l, VList (map VStr l)) [] (tags m)
  ++ dump exclude_unset "category" (VOpt VStr) None (category m)
  ++ dump exclude_unset "subcategory" (VOpt VStr) None (subcategory m).
End MetadataModel.

Module StockModel.
Record t := mk {
  available : field bool;
  quantity : field Z;
  low_stock_threshold : field Z }.

Definition new : t := mk Unset Unset Unset.

Definition dict (exclude_unset : bool) (s : t) : list (string * value) :=
  dump exclude_unset "available" VBool true (available s)
  ++ dump exclude_unset "quantity" VInt 0 (quantity s)
  ++ dump exclude_unset "low_stock_threshold" VInt 3 (low_stock_threshold s).

Definition valid (s : t) : Prop := 0 <= field_value 0 (quantity s).
End StockModel.

Module JewelryItemCreate.
Record t := mk {
  name : string;
  type : JewelryType;
  description : field (option string);
  price : PriceModel.t;
  metadata : field (option MetadataModel.t);
  ar_config : field (option ARConfigModel.t);
  stock : field (option StockModel.t) }.

(** Attribute reads on the parsed model: an omitted field holds the default
    instance, an explicit [null] holds [None]. *)
Definition get_description (i : t) : option string :=
  field_value None (description i).
Definition get_metadata (i : t) : option MetadataModel.t :=
  field_value (Some MetadataModel.new) (metadata i).
Definition get_ar_config (i : t) : option ARConfigModel.t :=
  field_value (Some ARConfigModel.new) (ar_config i).
Definition get_stock (i : t) : option StockModel.t :=
  field_value (Some StockModel.new) (stock i).

(** What the request schema accepts. *)
Definition valid (i : t) : Prop :=
  (1 <= utf8_length (name i) <= 200)%nat ∧
  match get_description i with
  | Some d => (utf8_length d <= 1000)%nat
  | None => True
  end ∧
  PriceModel.valid (price i) ∧
  match get_ar_config i with Some a => ARConfigModel.valid a | None => True end ∧
  match get_stock i with Some s => StockModel.valid s | None => True end.
End JewelryItemCreate.

Module JewelryItemUpdate.
Record t := mk {
  name : field (option string);
  type : field (option JewelryType);
  description : field (option string);
  price : field (option PriceModel.t);
  metadata : field (option MetadataModel.t);
  ar_config : field (option ARConfigModel.t);
  stock : field (option StockModel.t);
  status : field (option JewelryStatus) }.

(** [item.dict(exclude_unset=True)]: nested models are dumped with the same
    flag. *)
Definition dict_exclude_unset (u : t) : list (string * value) :=
  dump true "name" (VOpt VStr) None (name u)
  ++ dump true "type" (VOpt (λ x, VStr (JewelryType_value x))) None (type u)
  ++ dump true "description" (VOpt VStr) None (description u)
  ++ dump true "price" (VOpt (λ p, VDict (PriceModel.dict true p))) None (price u)
  ++ dump true "metadata" (VOpt (λ m, VDict (MetadataModel.dict true m))) None
       (metadata u)
  ++ dump true "ar_config" (VOpt (λ a, VDict (ARConfigModel.dict true a))) None
       (ar_config u)
  ++ dump true "stock" (VOpt (λ s, VDict (StockModel.dict true s))) None (stock u)
  ++ dump true "status" (VOpt (λ s, VStr (JewelryStatus_value s))) None (status u).
End JewelryItemUpdate.

Module UserDataModel.
Record t := mk {
  device : option string;
  browser : option string;
  os : option string;
  location : option (list (string * string));
  ip_address : option string }.

Definition dict (u : t) : list (string * value) :=
  [("device", VOpt VStr (device u)); ("browser", VOpt VStr (browser u));
   ("os", VOpt VStr (os u));
   ("location",
    VOpt (λ d, VDict (map (λ kv : string * string, (kv.1, VStr kv.2)) d))
      (location u));
   ("ip_address", VOpt VStr (ip_address u))].
End UserDataModel.

Module SourceModel.
Record t := mk {
  platform : option string;
  referrer : option string;
  campaign : option string }.

Definition dict (s : t) : list (string * value) :=
  [("platform", VOpt VStr (platform s)); ("referrer", VOpt VStr (referrer s));
   ("campaign", VOpt VStr (campaign s))].
End SourceModel.

Module InteractionsModel.
Record t := mk {
  camera_started : bool;
  face_detected : bool;
  photo_captured : bool;
  shared : bool }.

Definition dict (i : t) : list (string * value) :=
  [("camera_started", VBool (camera_started i));
   ("face_detected", VBool (face_detected i));
   ("photo_captured", VBool (photo_captured i));
   ("shared", VBool (shared i))].
End InteractionsModel.

Module AnalyticsEventCreate.
Record t := mk {
  jewelry_id : string;
  event_type : EventType;
  session_id : option string;
  user_data : option UserDataModel.t;
  source : option SourceModel.t;
  duration_seconds : option Z;
  interactions : option InteractionsModel.t }.
End AnalyticsEventCreate.

(** ** Stored documents *)

Fixpoint strip_prefix (p s : string) : option string :=
  match p with
  | EmptyString => Some s
  | String a p' =>
      match s with
      | String b s' => if Ascii.eqb a b then strip_prefix p' s' else None
      | EmptyString => None
      end
  end.

Module Analytics.
(** The [analytics] sub-document.  [create_jewelry] writes the five schema
    fields; [$inc] on any other path below [analytics] creates that field,
    kept in [extra] under its path: ["purchases"], or ["EventType.SHAREs"] for
    the field [SHAREs] of the embedded document [EventType]. *)
Record t := mk {
  views : Z;
  try_ons : Z;
  shares : Z;
  conversions : Z;
  revenue_generated : Q;
  extra : gmap string Z }.

(** Integer counter stored under [name]; a missing field reads as 0. *)
Definition get (name : string) (a : t) : Z :=
  if String.eqb name "views" then views a
  else if String.eqb name "try_ons" then try_ons a
  else if String.eqb name "shares" then shares a
  else if String.eqb name "conversions" then conversions a
  else default 0 (extra a !! name).

(** [{"$inc": {"analytics.<name>": n}}] *)
Definition inc (name : string) (n : Z) (a : t) : t :=
  if String.eqb name "views" then
    mk (views a + n) (try_ons a) (shares a) (conversions a) (revenue_generated a) (extra a)
  else if String.eqb name "try_ons" then
    mk (views a) (try_ons a + n) (shares a) (conversions a) (revenue_generated a) (extra a)
  else if String.eqb name "shares" then
    mk (views a) (try_ons a) (shares a + n) (conversions a) (revenue_generated a) (extra a)
  else if String.eqb name "conversions" then
    mk (views a) (try_ons a) (shares a) (conversions a + n) (revenue_generated a) (extra a)
  else if String.eqb name "revenue_generated" then
    mk (views a) (try_ons a) (shares a) (conversions a)
       (revenue_generated a + inject_Z n)%Q (extra a)
  else
    mk (views a) (try_ons a) (shares a) (conversions a) (revenue_generated a)
       (<[name := default 0 (extra a !! name) + n]> (extra a)).
End Analytics.

Module ShareLink.
Record t := mk {
  short_code : string;
  full_url : string;
  qr_code : string }.
End ShareLink.

Module JewelryDoc.
Record t := mk {
  item_id : string;
  name : value;
  type : value;
  description : value;
  price : value;
  images : value;
  ar_config : value;
  metadata : value;
  stock : value;
  share_link : ShareLink.t;
  analytics : Analytics.t;
  seo : value;
  created_at : Z;
  updated_at : Z;
  status : value }.

Definition with_analytics (a : Analytics.t) (d : t) : t :=
  mk (item_id d) (name d) (type d) (description d) (price d) (images d)
     (ar_config d) (metadata d) (stock d) (share_link d) a (seo d)
     (created_at d) (updated_at d) (status d).

(** One entry of a [$set] document.  The handlers only ever set the keys of
    [JewelryItemUpdate] and [updated_at]; any other key leaves the typed
    part of the document as it is. *)
Definition set_field (key : string) (v : value) (d : t) : t :=
  if String.eqb key "name" then
    mk (item_id d) v (type d) (description d) (price d) (images d)
       (ar_config d) (metadata d) (stock d) (share_link d) (analytics d) (seo d)
       (created_at d) (updated_at d) (status d)
  else if String.eqb key "type" then
    mk (item_id d) (name d) v (description d) (price d) (images d)
       (ar_config d) (metadata d) (stock d) (share_link d) (analytics d) (seo d)
       (created_at d) (updated_at d) (status d)
  else if String.eqb key "description" then
    mk (item_id d) (name d) (type d) v (price d) (images d)
       (ar_config d) (metadata d) (stock d) (share_link d) (analytics d) (seo d)
       (created_at d) (updated_at d) (status d)
  else if String.eqb key "price" then
    mk (item_id d) (name d) (type d) (description d) v (images d)
       (ar_config d) (metadata d) (stock d) (share_link d) (analytics d) (seo d)
       (created_at d) (updated_at d) (status d)
  else if String.eqb key "metadata" then
    mk (item_id d) (name d) (type d) (description d) (price d) (images d)
       (ar_config d) v (stock d) (share_link d) (analytics d) (seo d)
       (created_at d) (updated_at d) (status d)
  else if String.eqb key "ar_config" then
    mk (item_id d) (name d) (type d) (description d) (price d) (images d)
       v (metadata d) (stock d) (share_link d) (analytics d) (seo d)
       (created_at d) (updated_at d) (status d)
  else if String.eqb key "stock" then
    mk (item_id d) (name d) (type d) (description d) (price d) (images d)
       (ar_config d) (metadata d) v (share_link d) (analytics d) (seo d)
       (created_at d) (updated_at d) (status d)
  else if String.eqb key "status" then
    mk (item_id d) (name d) (type d) (description d) (price d) (images d)
       (ar_config d) (metadata d) (stock d) (share_link d) (analytics d) (seo d)
       (created_at d) (updated_at d) v
  else if String.eqb key "updated_at" then
    match v with
    | VDate now =>
        mk (item_id d) (name d) (type d) (description d) (price d) (images d)
           (ar_config d) (metadata d) (stock d) (share_link d) (analytics d)
           (seo d) (created_at d) now (status d)
    | _ => d
    end
  else d.
End JewelryDoc.

Module EventDoc.
Record t := mk {
  event_id : string;
  jewelry_id : string;
  event_type : EventType;
  timestamp : Z;
  session_id : option string;
  user_data : list (string * value);
  source : list (string * value);
  duration_seconds : option Z;
  interactions : list (string * value) }.
End EventDoc.

(** The database: the two collections of [database.py]. *)
Record DB := mkDB {
  jewelry_items : list JewelryDoc.t;
  analytics_events : list EventDoc.t }.

(** What one request reads from outside the store. *)
Record Env := mkEnv {
  generate : nat → string;   (* nanoid.generate(size=n) *)
  utcnow : Z;                (* datetime.utcnow() *)
  python : Python }.         (* the interpreter the service runs on *)

(** nanoid returns an identifier of the requested size, over an alphabet of
    one-byte characters. *)
Definition nanoid_contract (env : Env) (size : nat) : Prop :=
  String.length (generate env size) = size.

(** ** Exceptions and the handler monad *)

Inductive Exn : Type :=
| NameError (name : string)
| TypeError
| ValueError (msg : string)
| ZeroDivisionError
| DuplicateKeyError (key : string)
| OverflowError
| HTTPException (status_code : Z) (detail : Detail)
with Detail : Type :=
| Msg (s : string)
| StrOf (e : Exn).      (* str(e) *)

Inductive result (A : Type) : Type :=
| Ok (a : A)
| Raise (e : Exn).
Arguments Ok {A} a.
Arguments Raise {A} e.

Definition M (A : Type) : Type := DB → result A * DB.

Definition ret {A} (a : A) : M A := λ db, (Ok a, db).
Definition raise {A} (e : Exn) : M A := λ db, (Raise e, db).
Definition bind {A B} (m : M A) (k : A → M B) : M B :=
  λ db, match m db with
        | (Ok a, db') => k a db'
        | (Raise e, db') => (Raise e, db')
        end.

Notation "x <- m ;; k" := (bind m (λ x, k))
  (at level 100, m at next level, right associativity).
Notation "m ;;; k" := (bind m (λ _, k))
  (at level 100, right associativity).

Definition try_except {A} (m : M A) (handler : Exn → M A) : M A :=
  λ db, match m db with
        | (Raise e, db') => handler e db'
        | r => r
        end.

(** [except Exception as e: raise HTTPException(status_code=500, detail=str(e))] *)
Definition except_Exception {A} (e : Exn) : M A :=
  raise (HTTPException 500 (StrOf e)).

(** [except HTTPException: raise] followed by the clause above. *)
Definition except_HTTPException {A} (e : Exn) : M A :=
  match e with
  | HTTPException _ _ => raise e
  | _ => except_Exception e
  end.

(** ** The document store (motor / pymongo collections) *)

(** A filter document over [jewelry_items]: each key is optional. *)
Record Query := mkQuery {
  q_item_id : option string;
  q_status : option string;
  q_type : option string }.

Definition is_str (s : string) (v : value) : bool :=
  match v with VStr s' => String.eqb s' s | _ => false end.

Definition matches (q : Query) (d : JewelryDoc.t) : bool :=
  match q_item_id q with Some i => String.eqb (JewelryDoc.item_id d) i | None => true end
  && match q_status q with Some s => is_str s (JewelryDoc.status d) | None => true end
  && match q_type q with Some t => is_str t (JewelryDoc.type d) | None => true end.

Definition by_item_id (item_id : string) : Query := mkQuery (Some item_id) None None.

Inductive Update :=
| Inc (path : string) (n : Z)                  (* {"$inc": {path: n}} *)
| SetFields (fields : list (string * value)).  (* {"$set": fields} *)

Definition apply_update (u : Update) (d : JewelryDoc.t) : JewelryDoc.t :=
  match u with
  | Inc path n =>
      match strip_prefix "analytics." path with
      | Some name => JewelryDoc.with_analytics (Analytics.inc name n (JewelryDoc.analytics d)) d
      | None => d
      end
  | SetFields fields =>
      fold_left (λ acc kv, JewelryDoc.set_field kv.1 kv.2 acc) fields d
  end.

(** Rewrite the first element that satisfies [p]. *)
Fixpoint update_first {A} (p : A → bool) (f : A → A) (l : list A) : list A :=
  match l with
  | [] => []
  | x :: l' => if p x then f x :: l' else x :: update_first p f l'
  end.

Definition find_one (q : Query) : M (option JewelryDoc.t) :=
  λ db, (Ok (List.find (matches q) (jewelry_items db)), db).

(** [update_one] changes the first matching document, never inserts, and
    reports [matched_count]. *)
Definition update_one (q : Query) (u : Update) : M Z :=
  λ db,
    let matched :=
      match List.find (matches q) (jewelry_items db) with Some _ => 1 | None => 0 end in
    (Ok matched,
     mkDB (update_first (matches q) (apply_update u) (jewelry_items db))
          (analytics_events db)).

(** [jewelry_items] carries a unique index on [item_id] (database.py,
    [create_indexes]). *)
Definition insert_one (d : JewelryDoc.t) : M unit :=
  λ db,
    match List.find (matches (by_item_id (JewelryDoc.item_id d))) (jewelry_items db) with
    | Some _ => (Raise (DuplicateKeyError "item_id"), db)
    | None => (Ok (), mkDB (jewelry_items db ++ [d]) (analytics_events db))
    end.

Definition insert_one_event (e : EventDoc.t) : M unit :=
  λ db, (Ok (), mkDB (jewelry_items db) (analytics_events db ++ [e])).

Definition count_documents (q : Query) : M Z :=
  λ db, (Ok (Z.of_nat (length (filter (λ d, matches q d = true) (jewelry_items db)))), db).

(** Cursors.  [skip], [limit] and [sort] only record their argument; the
    query runs in [to_list], where the server sorts first, then skips, then
    limits, whatever the order of the chained calls. *)
Record Cursor (A : Type) := mkCursor {
  c_collection : DB → list A;
  c_filter : A → bool;
  c_skip : Z;
  c_limit : Z;
  c_sort : option ((A → Z) * Z) }.
Arguments mkCursor {A}.
Arguments c_collection {A}.
Arguments c_filter {A}.
Arguments c_skip {A}.
Arguments c_limit {A}.
Arguments c_sort {A}.

Definition find {A} (coll : DB → list A) (p : A → bool) : Cursor A :=
  mkCursor coll p 0 0 None.

(** [Cursor.skip] raises [ValueError] on a negative argument. *)
Definition skip {A} (n : Z) (c : Cursor A) : M (Cursor A) :=
  if n <? 0 then raise (ValueError "skip must be >= 0")
  else ret (mkCursor (c_collection c) (c_filter c) n (c_limit c) (c_sort c)).

Definition limit {A} (n : Z) (c : Cursor A) : M (Cursor A) :=
  ret (mkCursor (c_collection c) (c_filter c) (c_skip c) n (c_sort c)).

Definition sort {A} (key : A → Z) (direction : Z) (c : Cursor A) : M (Cursor A) :=
  ret (mkCursor (c_collection c) (c_filter c) (c_skip c) (c_limit c)
         (Some (key, direction))).

(** The order a sort specification asks for: descending when the direction
    is negative. *)
Definition sort_order {A} (key : A → Z) (direction : Z) : relation A :=
  λ a b, if direction <? 0 then key b <= key a else key a <= key b.

Global Instance sort_order_dec {A} (key : A → Z) (direction : Z) :
  RelDecision (sort_order key direction).
Proof. intros a b. unfold sort_order. destruct (direction <? 0); apply _. Defined.

Definition sorted_by {A} (spec : option ((A → Z) * Z)) (l : list A) : list A :=
  match spec with
  | Some (key, direction) => merge_sort (sort_order key direction) l
  | None => l
  end.

(** A limit of 0 means no limit; a negative limit is its absolute value. *)
Definition limited {A} (n : Z) (l : list A) : list A :=
  if n =? 0 then l else take (Z.to_nat (Z.abs n)) l.

Definition run_cursor {A} (c : Cursor A) (db : DB) : list A :=
  limited (c_limit c)
    (drop (Z.to_nat (c_skip c))
       (sorted_by (c_sort c)
          (filter (λ d, c_filter c d = true) (c_collection c db)))).

(** An integer of a command is sent as a BSON integer of at most 64 bits. *)
Definition fits_int64 (n : Z) : bool := (- 2 ^ 63 <=? n) && (n <? 2 ^ 63).

(** [to_list(length=n)] raises [ValueError] on a negative length; the query
    is sent on this first fetch, with [skip] and the absolute value of
    [limit], and the driver raises [OverflowError] on one that does not fit;
    at most [n] documents are returned. *)
Definition to_list {A} (length : Z) (c : Cursor A) : M (list A) :=
  if length <? 0 then raise (ValueError "length must be non-negative")
  else if negb (fits_int64 (c_skip c) && fits_int64 (Z.abs (c_limit c)))
  then raise OverflowError
  else λ db, (Ok (take (Z.to_nat length) (run_cursor c db)), db).

(** The [$match]/[$group] pipeline of [get_overall_analytics]: no group is
    produced when nothing matches. *)
Record Summary := mkSummary {
  total_items : Z;
  total_views : Z;
  total_try_ons : Z;
  total_shares : Z;
  total_conversions : Z;
  total_revenue : Q }.

Definition sumZ (l : list Z) : Z := fold_right Z.add 0 l.
Definition sumQ (l : list Q) : Q := fold_right Qplus 0%Q l.

Definition group_all (docs : list JewelryDoc.t) : Summary :=
  let a := map JewelryDoc.analytics docs in
  mkSummary (sumZ (map (λ _, 1) docs))
            (sumZ (map Analytics.views a))
            (sumZ (map Analytics.try_ons a))
            (sumZ (map Analytics.shares a))
            (sumZ (map Analytics.conversions a))
            (sumQ (map Analytics.revenue_generated a)).

Definition aggregate_match_group (q : Query) : M (list Summary) :=
  λ db,
    let docs := filter (λ d, matches q d = true) (jewelry_items db) in
    (Ok (match docs with [] => [] | _ => [group_all docs] end), db).

(** ** main.py: utility functions *)

Definition generate_short_code (env : Env) : string := generate env 8.

Definition create_share_link (short_code : string) : ShareLink.t :=
  ShareLink.mk short_code
    ("https://yoursite.com/try-on/" +:+ short_code)
    ("https://api.qrserver.com/v1/create-qr-code/?size=200x200&data=https://yoursite.com/try-on/"
       +:+ short_code).

(** Truth value of an optional string: [None] and [""] are false. *)
Definition truthy (o : option string) : bool :=
  match o with Some s => negb (String.eqb s "") | None => false end.

(** [a // b] *)
Definition floordiv (a b : Z) : M Z :=
  if b =? 0 then raise ZeroDivisionError else ret (a / b).

(** The multiple of 1/100 nearest to a rational, ties to the even multiple. *)
Definition round2 (x : Q) : Q :=
  let y := (x * 100)%Q in
  let f := Qfloor y in
  let n := match (y - inject_Z f ?= 1 # 2)%Q with
           | Lt => f
           | Gt => f + 1
           | Eq => if Z.even f then f else f + 1
           end in
  (n # 100)%Q.

(** [round(x, 2)] on a float: the exact value of the double is rounded to two
    decimals, ties to even, and the result is the double nearest to that
    decimal; zeros, infinities and NaN are returned as they are. *)
Definition round_float2 (x : spec_float) : spec_float :=
  match x with
  | S754_finite _ _ _ => nearest_float (round2 (float_value x))
  | _ => x
  end.

(** A Python number: [round(n, 2)] leaves an [int] as it is. *)
Inductive number := PyInt (z : Z) | PyFloat (x : spec_float).

Definition round_number2 (v : number) : number :=
  match v with
  | PyInt z => PyInt z
  | PyFloat x => PyFloat (round_float2 x)
  end.

Definition number_value (v : number) : Q :=
  match v with
  | PyInt z => inject_Z z
  | PyFloat x => float_value x
  end.

(** ** main.py: jewelry endpoints *)

Module ListResponse.
Record t := mk {
  success : bool;
  items : list JewelryDoc.t;
  count : Z;
  page : Z;
  page_size : Z;
  total_count : Z;
  total_pages : Z }.
End ListResponse.

Definition list_query (type status : option string) : Query :=
  mkQuery None (if truthy status then status else None)
          (if truthy type then type else None).

Definition get_all_jewelry (page page_size : Z) (type status : option string)
  : M ListResponse.t :=
  try_except
    (let query := list_query type status in
     let skip_ := (page - 1) * page_size in
     c <- skip skip_ (find jewelry_items (matches query)) ;;
     c <- limit page_size c ;;
     cursor <- sort JewelryDoc.created_at (-1) c ;;
     items <- to_list page_size cursor ;;
     total_count <- count_documents query ;;
     total_pages <- floordiv (total_count + page_size - 1) page_size ;;
     ret (ListResponse.mk true items (Z.of_nat (length items)) page page_size
            total_count total_pages))
    except_Exception.

Module ItemResponse.
Record t := mk {
  success : bool;
  message : option string;
  item : JewelryDoc.t }.
End ItemResponse.

Definition not_found {A} : M A :=
  raise (HTTPException 404 (Msg "Jewelry item not found")).

Definition get_jewelry_by_id (item_id : string) : M ItemResponse.t :=
  try_except
    (found <- find_one (by_item_id item_id) ;;
     match found with
     | None => not_found
     | Some item =>
         (* Track view *)
         update_one (by_item_id item_id) (Inc "analytics.views" 1) ;;;
         ret (ItemResponse.mk true None item)
     end)
    except_HTTPException.

Definition initial_analytics : Analytics.t := Analytics.mk 0 0 0 0 0%Q ∅.

Definition create_jewelry (env : Env) (item : JewelryItemCreate.t) : M ItemResponse.t :=
  try_except
    ((* Generate unique ID and share link *)
     let item_id := generate_short_code env in
     let share_link := create_share_link item_id in
     let now := utcnow env in
     ar_config <-
       match JewelryItemCreate.get_ar_config item with
       | Some a => ret (ARConfigModel.dict false a)
       | None => raise (NameError "ARConfigModel")   (* not imported in main.py *)
       end ;;
     let jewelry_doc :=
       JewelryDoc.mk item_id
         (VStr (JewelryItemCreate.name item))
         (VStr (JewelryType_value (JewelryItemCreate.type item)))
         (VOpt VStr (JewelryItemCreate.get_description item))
         (VDict (PriceModel.dict false (JewelryItemCreate.price item)))
         (VDict [("thumbnail", VNull); ("main", VNull); ("gallery", VList [])])
         (VDict ar_config)
         (VDict match JewelryItemCreate.get_metadata item with
                | Some m => MetadataModel.dict false m
                | None => []
                end)
         (VDict match JewelryItemCreate.get_stock item with
                | Some s => StockModel.dict false s
                | None => [("available", VBool true); ("quantity", VInt 0);
                           ("low_stock_threshold", VInt 3)]
                end)
         share_link
         initial_analytics
         (VDict [("meta_title", VStr (JewelryItemCreate.name item +:+ " - Virtual Try-On"));
                 ("meta_description",
                  VStr (if truthy (JewelryItemCreate.get_description item)
                        then utf8_take 160
                               (default "" (JewelryItemCreate.get_description item))
                        else ""));
                 ("keywords", VList [])])
         now now (VStr "active") in
     (* Insert to database *)
     insert_one jewelry_doc ;;;
     ret (ItemResponse.mk true (Some "Jewelry item created successfully") jewelry_doc))
    except_Exception.

Definition update_jewelry (env : Env) (item_id : string) (item : JewelryItemUpdate.t)
  : M ItemResponse.t :=
  try_except
    ((* Check if item exists *)
     existing <- find_one (by_item_id item_id) ;;
     match existing with
     | None => not_found
     | Some _ =>
         let update_data :=
           JewelryItemUpdate.dict_exclude_unset item
           ++ [("updated_at", VDate (utcnow env))] in
         update_one (by_item_id item_id) (SetFields update_data) ;;;
         updated_item <- find_one (by_item_id item_id) ;;
         match updated_item with
         | Some d => ret (ItemResponse.mk true (Some "Jewelry item updated successfully") d)
         | None => raise TypeError     (* subscript of None *)
         end
     end)
    except_HTTPException.

Module MessageResponse.
Record t := mk {
  success : bool;
  message : string }.
End MessageResponse.

Definition delete_jewelry (env : Env) (item_id : string) : M MessageResponse.t :=
  try_except
    (matched_count <-
       update_one (by_item_id item_id)
         (SetFields [("status", VStr "archived"); ("updated_at", VDate (utcnow env))]) ;;
     if matched_count =? 0 then not_found
     else ret (MessageResponse.mk true "Jewelry item deleted successfully"))
    except_HTTPException.

(** ** main.py: analytics endpoints *)

(** The handler is written over the [update_one] operation of the collection
    it is served with, so that its answer to a failure of that call can be
    stated; [track_event] is the handler on the store above. *)
Definition track_event_with (update_one : Query → Update → M Z)
    (env : Env) (event : AnalyticsEventCreate.t) : M MessageResponse.t :=
  try_except
    ((* Generate event ID *)
     let event_id := generate env 16 in
     let event_doc :=
       EventDoc.mk event_id
         (AnalyticsEventCreate.jewelry_id event)
         (AnalyticsEventCreate.event_type event)
         (utcnow env)
         (AnalyticsEventCreate.session_id event)
         (match AnalyticsEventCreate.user_data event with
          | Some u => UserDataModel.dict u | None => [] end)
         (match AnalyticsEventCreate.source event with
          | Some s => SourceModel.dict s | None => [] end)
         (AnalyticsEventCreate.duration_seconds event)
         (match AnalyticsEventCreate.interactions event with
          | Some i => InteractionsModel.dict i | None => [] end) in
     insert_one_event event_doc ;;;
     (* Update item analytics *)
     let update_field :=
       "analytics."
       +:+ format_EventType (python env) (AnalyticsEventCreate.event_type event) +:+ "s" in
     update_one (by_item_id (AnalyticsEventCreate.jewelry_id event)) (Inc update_field 1) ;;;
     ret (MessageResponse.mk true "Event tracked successfully"))
    except_Exception.

Definition track_event : Env → AnalyticsEventCreate.t → M MessageResponse.t :=
  track_event_with update_one.

Module ItemAnalyticsResponse.
Record t := mk {
  success : bool;
  item_id : string;
  item_name : value;
  stats : Analytics.t;
  recent_events : list EventDoc.t }.
End ItemAnalyticsResponse.

Definition get_item_analytics (item_id : string) : M ItemAnalyticsResponse.t :=
  try_except
    (found <- find_one (by_item_id item_id) ;;
     match found with
     | None => not_found
     | Some item =>
         c <- sort EventDoc.timestamp (-1)
                (find analytics_events (λ e, String.eqb (EventDoc.jewelry_id e) item_id)) ;;
         cursor <- limit 100 c ;;
         events <- to_list 100 cursor ;;
         ret (ItemAnalyticsResponse.mk true item_id (JewelryDoc.name item)
                (JewelryDoc.analytics item) events)
     end)
    except_HTTPException.

Module OverallResponse.
Record t := mk {
  success : bool;
  total_items : Z;
  total_views : Z;
  total_try_ons : Z;
  total_shares : Z;
  total_conversions : Z;
  total_revenue : Q;
  conversion_rate : Q;
  top_items : list JewelryDoc.t }.
End OverallResponse.

Definition active_query : Query := mkQuery None (Some "active") None.

(** [summary.get(key, 0)] on [result[0] if result else {}] *)
Definition summary_get {A} (proj : Summary → A) (zero : A) (result : list Summary) : A :=
  match result with s :: _ => proj s | [] => zero end.

Definition try_ons_key (d : JewelryDoc.t) : Z := Analytics.try_ons (JewelryDoc.analytics d).

Definition get_overall_analytics : M OverallResponse.t :=
  try_except
    (result <- aggregate_match_group active_query ;;
     let result := take 1 result in
     (* Calculate conversion rate *)
     let try_ons := summary_get total_try_ons 0 result in
     let conversions := summary_get total_conversions 0 result in
     let conversion_rate :=
       if try_ons >? 0
       then PyFloat (float_mul (true_divide conversions try_ons) (float_of_int 100))
       else PyInt 0 in
     (* Get top items *)
     c <- sort try_ons_key (-1) (find jewelry_items (matches active_query)) ;;
     cursor <- limit 5 c ;;
     top_items <- to_list 5 cursor ;;
     ret (OverallResponse.mk true
            (summary_get total_items 0 result)
            (summary_get total_views 0 result)
            (summary_get total_try_ons 0 result)
            (summary_get total_shares 0 result)
            (summary_get total_conversions 0 result)
            (summary_get total_revenue 0%Q result)
            (number_value (round_number2 conversion_rate))
            top_items))
    except_Exception.

(** ** Reading the store in statements *)

(** The document a lookup by [item_id] returns. *)
Definition stored (item_id : string) (db : DB) : option JewelryDoc.t :=
  List.find (matches (by_item_id item_id)) (jewelry_items db).

Definition views_of (d : JewelryDoc.t) : Z := Analytics.views (JewelryDoc.analytics d).

Definition is_active (d : JewelryDoc.t) : bool := is_str "active" (JewelryDoc.status d).

Definition active_items (db : DB) : list JewelryDoc.t :=
  filter (λ d, is_active d = true) (jewelry_items db).

(** Documents a [List] call selects, before ordering and paging. *)
Definition matching (type status : option string) (db : DB) : list JewelryDoc.t :=
  filter (λ d, matches (list_query type status) d = true) (jewelry_items db).

(** The page a List call selects: order by [created_at] descending, skip
    [(page - 1) * page_size], keep [page_size]. *)
Definition list_items (page page_size : Z) (type status : option string) (db : DB)
  : list JewelryDoc.t :=
  take (Z.to_nat page_size)
    (drop (Z.to_nat ((page - 1) * page_size))
       (sorted_by (Some (JewelryDoc.created_at, -1)) (matching type status db))).

(** Descending order on a key. *)
Definition descending {A} (key : A → Z) : relation A := λ a b, key b <= key a.

(** The record-level reading of a partial update: a supplied field replaces
    the stored value, an unset one keeps it. *)
Definition supplied {A} (enc : A → value) (f : field (option A)) (old : value) : value :=
  match f with Given v => VOpt enc v | Unset => old end.

Definition merge_update (u : JewelryItemUpdate.t) (now : Z) (d : JewelryDoc.t)
  : JewelryDoc.t :=
  JewelryDoc.mk (JewelryDoc.item_id d)
    (supplied VStr (JewelryItemUpdate.name u) (JewelryDoc.name d))
    (supplied (λ x, VStr (JewelryType_value x)) (JewelryItemUpdate.type u) (JewelryDoc.type d))
    (supplied VStr (JewelryItemUpdate.description u) (JewelryDoc.description d))
    (supplied (λ p, VDict (PriceModel.dict true p)) (JewelryItemUpdate.price u)
       (JewelryDoc.price d))
    (JewelryDoc.images d)
    (supplied (λ a, VDict (ARConfigModel.dict true a)) (JewelryItemUpdate.ar_config u)
       (JewelryDoc.ar_config d))
    (supplied (λ m, VDict (MetadataModel.dict true m)) (JewelryItemUpdate.metadata u)
       (JewelryDoc.metadata d))
    (supplied (λ s, VDict (StockModel.dict true s)) (JewelryItemUpdate.stock u)
       (JewelryDoc.stock d))
    (JewelryDoc.share_link d)
    (JewelryDoc.analytics d)
    (JewelryDoc.seo d)
    (JewelryDoc.created_at d)
    now
    (supplied (λ s, VStr (JewelryStatus_value s)) (JewelryItemUpdate.status u)
       (JewelryDoc.status d)).

(** Requests, and the store after one of them. *)
Inductive Request :=
| ReqList (page page_size : Z) (type status : option string)
| ReqGet (item_id : string)
| ReqCreate (item : JewelryItemCreate.t)
| ReqUpdate (item_id : string) (item : JewelryItemUpdate.t)
| ReqDelete (item_id : string)
| ReqTrackEvent (event : AnalyticsEventCreate.t)
| ReqItemAnalytics (item_id : string)
| ReqOverallAnalytics.

Definition step (env : Env) (r : Request) (db : DB) : DB :=
  match r with
  | ReqList page page_size type status => (get_all_jewelry page page_size type status db).2
  | ReqGet item_id => (get_jewelry_by_id item_id db).2
  | ReqCreate item => (create_jewelry env item db).2
  | ReqUpdate item_id item => (update_jewelry env item_id item db).2
  | ReqDelete item_id => (delete_jewelry env item_id db).2
  | ReqTrackEvent event => (track_event env event db).2
  | ReqItemAnalytics item_id => (get_item_analytics item_id db).2
  | ReqOverallAnalytics => (get_overall_analytics db).2
  end.

(** ** Sample data *)

Definition sample_env (now : Z) : Env :=
  mkEnv (λ n, string_of_list_ascii (repeat "A"%char n)) now Python_3_11.

(** The same environment on an interpreter older than 3.11. *)
Definition sample_env_3_10 (now : Z) : Env :=
  mkEnv (λ n, string_of_list_ascii (repeat "A"%char n)) now Python_3_10.

Definition sample_price : PriceModel.t := PriceModel.mk (10 # 1) Unset Unset.

(** [{"name": "Ring", "type": "ring", "price": {"amount": 10}}] *)
Definition sample_create : JewelryItemCreate.t :=
  JewelryItemCreate.mk "Ring" RING Unset sample_price Unset Unset Unset.

(** The same request with ["ar_config": null]. *)
Definition sample_create_null_ar_config : JewelryItemCreate.t :=
  JewelryItemCreate.mk "Ring" RING Unset sample_price Unset (Given None) Unset.

Definition empty_db : DB := mkDB [] [].

(** A stored document with the payload [create_jewelry] writes for
    [sample_create]. *)
Definition sample_doc (item_id : string) (created_at : Z) (status : string)
    (analytics : Analytics.t) : JewelryDoc.t :=
  JewelryDoc.mk item_id (VStr "Ring") (VStr "ring") VNull
    (VDict [("amount", VFloat (10 # 1)); ("currency", VStr "NPR"); ("discount", VNull)])
    (VDict [("thumbnail", VNull); ("main", VNull); ("gallery", VList [])])
    (VDict [("color", VStr "#FFD700"); ("size", VInt 30);
            ("position_offset", VDict [("x", VInt 0); ("y", VInt 0)]);
            ("landmarks", VList [VInt 234; VInt 454]);
            ("render_type", VStr "circle")])
    (VDict [("material", VNull); ("weight", VNull); ("tags", VList []);
            ("category", VNull); ("subcategory", VNull)])
    (VDict [("available", VBool true); ("quantity", VInt 0);
            ("low_stock_threshold", VInt 3)])
    (create_share_link item_id)
    analytics
    (VDict [("meta_title", VStr "Ring - Virtual Try-On"); ("meta_description", VStr "");
            ("keywords", VList [])])
    created_at created_at (VStr status).

(** The document created for [sample_create] at time 100, and the store that
    holds it. *)
Definition sample_item : JewelryDoc.t :=
  sample_doc "AAAAAAAA" 100 "active" (Analytics.mk 0 0 0 0 0%Q ∅).

Definition sample_db : DB := mkDB [sample_item] [].

Definition sample_response : ItemResponse.t :=
  ItemResponse.mk true (Some "Jewelry item created successfully") sample_item.

Definition sample_event (jewelry_id : string) (event_type : EventType)
  : AnalyticsEventCreate.t :=
  AnalyticsEventCreate.mk jewelry_id event_type None None None None None.

(** Two active items with [try_ons = [10, 0]] and [conversions = [2, 0]]. *)
Definition sample_db_conversions : DB :=
  mkDB [sample_doc "AAAAAAAA" 100 "active" (Analytics.mk 40 10 3 2 0%Q ∅);
        sample_doc "BBBBBBBB" 101 "active" (Analytics.mk 5 0 0 0 0%Q ∅)] [].

(** [n] active items created at times [0 .. n-1]. *)
Definition sample_db_of_size (n : nat) : DB :=
  mkDB (map (λ i, sample_doc (string_of_list_ascii (repeat "A"%char i)) (Z.of_nat i)
                    "active" (Analytics.mk 0 0 0 0 0%Q ∅))
            (seq 0 n)) [].

(** [{"status": "active"}] and [{"name": "New Name"}] as update bodies. *)
Definition sample_update_status (s : JewelryStatus) : JewelryItemUpdate.t :=
  JewelryItemUpdate.mk Unset Unset Unset Unset Unset Unset Unset (Given (Some s)).

Definition sample_update_name : JewelryItemUpdate.t :=
  JewelryItemUpdate.mk (Given (Some "New Name")) Unset Unset Unset Unset Unset Unset Unset.

(** The status transitions the specification allows: draft to active, active
    to archived, draft to archived (or no change). *)
Definition status_transition_allowed (old new : value) : Prop :=
  old = new ∨
  (old = VStr "draft" ∧ new = VStr "active") ∨
  (old = VStr "active" ∧ new = VStr "archived") ∨
  (old = VStr "draft" ∧ new = VStr "archived").

(** ** Whole requests: outcomes, changes and reachable stores *)

(** The document [delete_jewelry] leaves behind. *)
Definition archive (now : Z) (d : JewelryDoc.t) : JewelryDoc.t :=
  JewelryDoc.mk (JewelryDoc.item_id d) (JewelryDoc.name d) (JewelryDoc.type d)
    (JewelryDoc.description d) (JewelryDoc.price d) (JewelryDoc.images d)
    (JewelryDoc.ar_config d) (JewelryDoc.metadata d) (JewelryDoc.stock d)
    (JewelryDoc.share_link d) (JewelryDoc.analytics d) (JewelryDoc.seo d)
    (JewelryDoc.created_at d) now (VStr "archived").

(** The document a counted view or event leaves behind. *)
Definition counted (name : string) (d : JewelryDoc.t) : JewelryDoc.t :=
  JewelryDoc.with_analytics (Analytics.inc name 1 (JewelryDoc.analytics d)) d.

(** Events recorded for one item. *)
Definition events_of (item_id : string) (db : DB) : list EventDoc.t :=
  filter (λ e, String.eqb (EventDoc.jewelry_id e) item_id = true) (analytics_events db).

Definition error_of {A} (r : result A) : option Exn :=
  match r with Ok _ => None | Raise e => Some e end.

(** The exception a request is answered with, if any. *)
Definition outcome (env : Env) (r : Request) (db : DB) : option Exn :=
  match r with
  | ReqList page page_size type status =>
      error_of (get_all_jewelry page page_size type status db).1
  | ReqGet item_id => error_of (get_jewelry_by_id item_id db).1
  | ReqCreate item => error_of (create_jewelry env item db).1
  | ReqUpdate item_id item => error_of (update_jewelry env item_id item db).1
  | ReqDelete item_id => error_of (delete_jewelry env item_id db).1
  | ReqTrackEvent event => error_of (track_event env event db).1
  | ReqItemAnalytics item_id => error_of (get_item_analytics item_id db).1
  | ReqOverallAnalytics => error_of (get_overall_analytics db).1
  end.

(** How one request may change one stored document. *)
Inductive doc_change (env : Env) (r : Request) (d : JewelryDoc.t) : JewelryDoc.t → Prop :=
| change_none : doc_change env r d d
| change_viewed :
    r = ReqGet (JewelryDoc.item_id d) → doc_change env r d (counted "views" d)
| change_tracked event :
    r = ReqTrackEvent event →
    AnalyticsEventCreate.jewelry_id event = JewelryDoc.item_id d →
    doc_change env r d
      (counted (format_EventType (python env) (AnalyticsEventCreate.event_type event)
                +:+ "s") d)
| change_updated item :
    r = ReqUpdate (JewelryDoc.item_id d) item →
    doc_change env r d (merge_update item (utcnow env) d)
| change_archived :
    r = ReqDelete (JewelryDoc.item_id d) → doc_change env r d (archive (utcnow env) d).

(** Stores that arise from the empty database by serving requests. *)
Inductive reachable : DB → Prop :=
| reachable_empty : reachable empty_db
| reachable_step env r db : reachable db → reachable (step env r db).

(** ** database.py *)

Module MongoDB.
(** One [create_index] call: collection, key specification, uniqueness. *)
Record Index := mkIndex {
  collection : string;
  keys : list (string * Z);
  unique : bool }.

Global Instance Index_eq_dec : EqDecision Index.
Proof. solve_decision. Defined.

(** The calls of [create_indexes], in the order they are issued. *)
Definition wanted : list Index :=
  [mkIndex "jewelry_items" [("item_id", 1)] true;
   mkIndex "jewelry_items" [("type", 1)] false;
   mkIndex "jewelry_items" [("status", 1)] false;
   mkIndex "jewelry_items" [("created_at", -1)] false;
   mkIndex "jewelry_items" [("metadata.tags", 1)] false;
   mkIndex "analytics_events" [("jewelry_id", 1)] false;
   mkIndex "analytics_events" [("event_type", 1)] false;
   mkIndex "analytics_events" [("timestamp", -1)] false;
   mkIndex "analytics_events" [("session_id", 1)] false].

(** The class attributes [client] and [db]; [closed] records [client.close()]. *)
Record t := mk {
  client : option string;
  db : option string;
  closed : bool }.

Definition initial : t := mk None None false.

(** The server as startup meets it: does [ping] answer, does a given
    [create_index] call succeed, and which indexes exist. *)
Record Server := mkServer {
  ping_ok : bool;
  create_index_ok : Index → bool;
  indexes : list Index }.

(** Creating an index that exists already changes nothing. *)
Definition add_index (ix : Index) (existing : list Index) : list Index :=
  if decide (ix ∈ existing) then existing else existing ++ [ix].

(** The body of the [try] block: the calls run in order and the first one
    that raises ends the block. *)
Fixpoint create_each (ok : Index → bool) (todo existing : list Index) : list Index :=
  match todo with
  | [] => existing
  | ix :: rest => if ok ix then create_each ok rest (add_index ix existing) else existing
  end.

(** [create_indexes]: the [except] clause only logs. *)
Definition create_indexes (srv : Server) : Server :=
  mkServer (ping_ok srv) (create_index_ok srv)
    (create_each (create_index_ok srv) wanted (indexes srv)).

Inductive Startup := Connected | ConnectFailed.

(** [connect_db]: both attributes are assigned before the ping; a failed ping
    is logged and raised again. *)
Definition connect_db (url name : string) (srv : Server) (st : t)
  : Startup * t * Server :=
  let st' := mk (Some url) (Some name) false in
  if ping_ok srv then (Connected, st', create_indexes srv)
  else (ConnectFailed, st', srv).

Definition close_db (st : t) : t :=
  match client st with
  | Some _ => mk (client st) (db st) true
  | None => st
  end.

Definition get_db (st : t) : option string := db st.
End MongoDB.

(** ** Facts about the store operations *)

Section update_first.
Context {A : Type} (p : A → bool) (f : A → A).

Lemma find_split (l : list A) (d : A) :
  List.find p l = Some d →
  ∃ l1 l2, l = l1 ++ d :: l2 ∧ p d = true ∧ List.find p l1 = None.
Proof.
  induction l as [|x l IH]; simpl; [done|].
  destruct (p x) eqn:Hx.
  - intros [= ->]. by exists [], l.
  - intros (l1 & l2 & -> & Hd & Hl1)%IH.
    exists (x :: l1), l2. simpl. by rewrite Hx.
Qed.

Lemma find_app_none (l1 l2 : list A) :
  List.find p l1 = None → List.find p (l1 ++ l2) = List.find p l2.
Proof.
  induction l1 as [|x l1 IH]; simpl; [done|].
  destruct (p x); [done|]. exact IH.
Qed.

Lemma update_first_app_none (l1 l2 : list A) :
  List.find p l1 = None →
  update_first p f (l1 ++ l2) = l1 ++ update_first p f l2.
Proof.
  induction l1 as [|x l1 IH]; simpl; [done|].
  destruct (p x); [done|]. intros H. by rewrite IH.
Qed.

Lemma update_first_absent (l : list A) :
  List.find p l = None → update_first p f l = l.
Proof.
  intros H. rewrite <- (app_nil_r l) at 1.
  rewrite update_first_app_none by done. simpl. apply app_nil_r.
Qed.

Lemma update_first_found (l : list A) (d : A) :
  List.find p l = Some d →
  ∃ l1 l2, l = l1 ++ d :: l2 ∧ List.find p l1 = None ∧
           update_first p f l = l1 ++ f d :: l2.
Proof.
  intros (l1 & l2 & -> & Hd & Hl1)%find_split.
  exists l1, l2. split; [done|]. split; [done|].
  rewrite update_first_app_none by done. simpl. by rewrite Hd.
Qed.

Lemma update_first_length (l : list A) :
  length (update_first p f l) = length l.
Proof.
  induction l as [|x l IH]; simpl; [done|].
  destruct (p x); simpl; by rewrite ?IH.
Qed.

(** Every position holds either the old element or its image under [f]. *)
Lemma update_first_lookup (l : list A) (i : nat) (x y : A) :
  l !! i = Some x → update_first p f l !! i = Some y →
  y = x ∨ (y = f x ∧ List.find p l = Some x).
Proof.
  revert i. induction l as [|a l IH]; intros i; simpl; [done|].
  destruct (p a) eqn:Ha.
  - destruct i as [|i]; simpl.
    + intros [= ->] [= <-]. by right.
    + intros H1 H2. left. congruence.
  - destruct i as [|i]; simpl.
    + intros [= ->] [= <-]. by left.
    + apply IH.
Qed.
End update_first.

Lemma matches_by_item_id (i : string) (d : JewelryDoc.t) :
  matches (by_item_id i) d = String.eqb (JewelryDoc.item_id d) i.
Proof. unfold matches, by_item_id. simpl. by rewrite !andb_true_r. Qed.

Lemma set_field_item_id k v d :
  JewelryDoc.item_id (JewelryDoc.set_field k v d) = JewelryDoc.item_id d.
Proof.
  unfold JewelryDoc.set_field. by repeat case_match.
Qed.

Lemma apply_update_item_id u d :
  JewelryDoc.item_id (apply_update u d) = JewelryDoc.item_id d.
Proof.
  destruct u as [path n|fields]; simpl.
  - by case_match.
  - revert d. induction fields as [|[k v] fields IH]; intros d; simpl; [done|].
    by rewrite IH, set_field_item_id.
Qed.

(** An update leaves the updated document reachable under the same id. *)
Lemma stored_after_update id u db d :
  stored id db = Some d →
  stored id (update_one (by_item_id id) u db).2 = Some (apply_update u d) ∧
  ∃ l1 l2, jewelry_items db = l1 ++ d :: l2 ∧
           jewelry_items (update_one (by_item_id id) u db).2
           = l1 ++ apply_update u d :: l2.
Proof.
  unfold stored. intros Hd. simpl.
  destruct (update_first_found _ (apply_update u) _ _ Hd) as (l1 & l2 & Hl & Hl1 & Hup).
  rewrite Hup. split; [|by exists l1, l2].
  rewrite find_app_none by done. simpl.
  rewrite matches_by_item_id, apply_update_item_id, <- matches_by_item_id.
  apply find_split in Hd as (? & ? & _ & -> & _). done.
Qed.

(** ** Facts about the analytics counters *)

Lemma eqb_string_spec (a b : string) : reflect (a = b) (String.eqb a b).
Proof. destruct (String.eqb_spec a b); by constructor. Qed.

Ltac case_names :=
  repeat match goal with
         | |- context [String.eqb ?a ?b] =>
             destruct (eqb_string_spec a b); simplify_eq/=
         | H : context [String.eqb ?a ?b] |- _ =>
             destruct (eqb_string_spec a b); simplify_eq/=
         end.

Lemma analytics_get_inc name n a :
  name ≠ "revenue_generated" →
  Analytics.get name (Analytics.inc name n a) = Analytics.get name a + n.
Proof.
  intros Hname. unfold Analytics.get, Analytics.inc.
  case_names; try done. by rewrite lookup_insert_eq.
Qed.

Lemma analytics_get_inc_other name other n a :
  other ≠ name →
  Analytics.get other (Analytics.inc name n a) = Analytics.get other a.
Proof.
  intros Hname. unfold Analytics.get, Analytics.inc.
  case_names; try done. by rewrite lookup_insert_ne.
Qed.

Lemma inc_views d :
  views_of (apply_update (Inc "analytics.views" 1) d) = views_of d + 1.
Proof. reflexivity. Qed.

(** ** Facts about the handlers *)

Lemma get_jewelry_by_id_found id db item :
  stored id db = Some item →
  get_jewelry_by_id id db
  = (Ok (ItemResponse.mk true None item),
     (update_one (by_item_id id) (Inc "analytics.views" 1) db).2).
Proof.
  unfold stored. intros H.
  unfold get_jewelry_by_id, try_except, bind, find_one. by rewrite H.
Qed.

Lemma get_jewelry_by_id_absent id db :
  stored id db = None →
  get_jewelry_by_id id db
  = (Raise (HTTPException 404 (Msg "Jewelry item not found")), db).
Proof.
  unfold stored. intros H.
  unfold get_jewelry_by_id, try_except, bind, find_one. by rewrite H.
Qed.

Lemma get_jewelry_by_id_stored id db item :
  stored id db = Some item →
  ∃ item', stored id (get_jewelry_by_id id db).2 = Some item' ∧
           views_of item' = views_of item + 1 ∧
           ∃ l1 l2, jewelry_items db = l1 ++ item :: l2 ∧
                    jewelry_items (get_jewelry_by_id id db).2 = l1 ++ item' :: l2.
Proof.
  intros H. rewrite (get_jewelry_by_id_found _ _ _ H).
  destruct (stored_after_update id (Inc "analytics.views" 1) db item H) as [Hs Hl].
  exists (apply_update (Inc "analytics.views" 1) item).
  split; [exact Hs|]. split; [apply inc_views|exact Hl].
Qed.

(** What a successful [create_jewelry] has done. *)
Lemma create_jewelry_inv env input db resp db' :
  create_jewelry env input db = (Ok resp, db') →
  let doc := ItemResponse.item resp in
  stored (JewelryDoc.item_id doc) db = None ∧
  jewelry_items db' = jewelry_items db ++ [doc] ∧
  analytics_events db' = analytics_events db ∧
  JewelryDoc.item_id doc = generate_short_code env ∧
  ShareLink.short_code (JewelryDoc.share_link doc) = JewelryDoc.item_id doc ∧
  JewelryDoc.status doc = VStr "active" ∧
  JewelryDoc.created_at doc = utcnow env ∧
  JewelryDoc.updated_at doc = utcnow env ∧
  JewelryDoc.analytics doc = initial_analytics ∧
  ∃ a, JewelryItemCreate.get_ar_config input = Some a ∧
       JewelryDoc.ar_config doc = VDict (ARConfigModel.dict false a).
Proof.
  unfold create_jewelry, try_except, bind, insert_one, stored.
  destruct (JewelryItemCreate.get_ar_config input) as [a|]; simpl; [|done].
  match goal with |- context [List.find ?p ?l] => destruct (List.find p l) eqn:Hf end;
    simpl; [done|].
  intros [= <- <-]. simpl. repeat split; try done. by exists a.
Qed.

Lemma create_jewelry_ok env input db a :
  JewelryItemCreate.get_ar_config input = Some a →
  stored (generate_short_code env) db = None →
  ∃ resp db', create_jewelry env input db = (Ok resp, db').
Proof.
  unfold create_jewelry, try_except, bind, insert_one, stored.
  intros -> H. simpl. rewrite H. simpl. eauto.
Qed.

Lemma stored_after_create env input db resp db' :
  create_jewelry env input db = (Ok resp, db') →
  stored (JewelryDoc.item_id (ItemResponse.item resp)) db' = Some (ItemResponse.item resp).
Proof.
  intros (Hnone & Hitems & _)%create_jewelry_inv.
  unfold stored in *. rewrite Hitems, find_app_none by done. simpl.
  by rewrite matches_by_item_id, String.eqb_refl.
Qed.

(** ** Get: view-on-read *)

(** C1. A successful Get leaves the stored [analytics.views] of the item one
    greater than before and touches no other document; three Gets on a
    freshly created item leave it at 3; Get on an absent id fails with 404
    and leaves the store as it was. *)
Theorem get_increments_views :
  (∀ id db item,
     stored id db = Some item →
     let out := get_jewelry_by_id id db in
     (∃ resp, out.1 = Ok resp) ∧
     ∃ item', stored id out.2 = Some item' ∧
              views_of item' = views_of item + 1 ∧
              ∃ l1 l2, jewelry_items db = l1 ++ item :: l2 ∧
                       jewelry_items out.2 = l1 ++ item' :: l2) ∧
  (∀ env input db resp db1,
     create_jewelry env input db = (Ok resp, db1) →
     let id := JewelryDoc.item_id (ItemResponse.item resp) in
     let db2 := (get_jewelry_by_id id db1).2 in
     let db3 := (get_jewelry_by_id id db2).2 in
     let db4 := (get_jewelry_by_id id db3).2 in
     views_of <$> stored id db4 = Some 3) ∧
  (∀ id db,
     stored id db = None →
     get_jewelry_by_id id db
     = (Raise (HTTPException 404 (Msg "Jewelry item not found")), db)).
Proof.
  split; [|split].
  - intros id db item H out. split.
    + subst out. rewrite (get_jewelry_by_id_found _ _ _ H). eauto.
    + apply get_jewelry_by_id_stored, H.
  - intros env input db resp db1 Hc id db2 db3 db4.
    pose proof (stored_after_create _ _ _ _ _ Hc) as H1.
    apply create_jewelry_inv in Hc as (_ & _ & _ & _ & _ & _ & _ & _ & Ha & _).
    fold id in H1.
    destruct (get_jewelry_by_id_stored _ _ _ H1) as (i2 & H2 & V2 & _). fold db2 in H2.
    destruct (get_jewelry_by_id_stored _ _ _ H2) as (i3 & H3 & V3 & _). fold db3 in H3.
    destruct (get_jewelry_by_id_stored _ _ _ H3) as (i4 & H4 & V4 & _). fold db4 in H4.
    rewrite H4. simpl. f_equal.
    rewrite V4, V3, V2. unfold views_of. by rewrite Ha.
  - apply get_jewelry_by_id_absent.
Qed.

Lemma get_increments_views_witness :
  (stored "AAAAAAAA" sample_db = Some sample_item ∧
   ∃ item', stored "AAAAAAAA" (get_jewelry_by_id "AAAAAAAA" sample_db).2 = Some item' ∧
            views_of item' = views_of sample_item + 1) ∧
  (create_jewelry (sample_env 100) sample_create empty_db = (Ok sample_response, sample_db) ∧
   views_of <$>
     stored "AAAAAAAA"
       (get_jewelry_by_id "AAAAAAAA"
          (get_jewelry_by_id "AAAAAAAA"
             (get_jewelry_by_id "AAAAAAAA" sample_db).2).2).2 = Some 3) ∧
  (stored "missing" sample_db = None ∧
   get_jewelry_by_id "missing" sample_db
   = (Raise (HTTPException 404 (Msg "Jewelry item not found")), sample_db)).
Proof.
  destruct get_increments_views as (Ha & Hb & Hc).
  split; [|split].
  - split; [reflexivity|].
    destruct (Ha "AAAAAAAA" sample_db sample_item eq_refl) as (_ & i & H1 & H2 & _).
    exists i. split; assumption.
  - split; [reflexivity|].
    exact (Hb (sample_env 100) sample_create empty_db sample_response sample_db eq_refl).
  - split; [reflexivity|].
    exact (Hc "missing" sample_db eq_refl).
Defined.

(** C10. The item in a successful Get response is the document as it was
    read before this call's own increment: its [analytics.views] is the value
    stored before the call, one less than the value stored after it. *)
Theorem get_returns_snapshot (id : string) (db db' : DB) (resp : ItemResponse.t) :
  get_jewelry_by_id id db = (Ok resp, db') →
  stored id db = Some (ItemResponse.item resp) ∧
  ∃ after, stored id db' = Some after ∧
           views_of (ItemResponse.item resp) = views_of after - 1.
Proof.
  destruct (stored id db) as [item|] eqn:H.
  - pose proof (get_jewelry_by_id_stored _ _ _ H) as (after & Hs & Hv & _).
    rewrite (get_jewelry_by_id_found _ _ _ H) in *.
    intros [= <- <-]. simpl. split; [done|].
    exists after. split; [done|]. lia.
  - by rewrite (get_jewelry_by_id_absent _ _ H).
Qed.

Lemma get_returns_snapshot_witness :
  get_jewelry_by_id "AAAAAAAA" sample_db
  = (Ok (ItemResponse.mk true None sample_item),
     (get_jewelry_by_id "AAAAAAAA" sample_db).2) ∧
  stored "AAAAAAAA" sample_db = Some sample_item ∧
  ∃ after, stored "AAAAAAAA" (get_jewelry_by_id "AAAAAAAA" sample_db).2 = Some after ∧
           views_of sample_item = views_of after - 1.
Proof.
  split; [reflexivity|].
  exact (get_returns_snapshot "AAAAAAAA" sample_db _ (ItemResponse.mk true None sample_item)
           eq_refl).
Defined.

(** ** TrackEvent *)

(** C2. TrackEvent always answers success and appends one event carrying the
    generated 16-character id and the server clock reading, whether or not
    the referenced item exists; when it does not exist, the catalog is left
    as it was.  When it exists, exactly one counter of that item goes up by
    1 and nothing else in the catalog changes, but which counter depends on
    how the interpreter formats the enum member inside the f-string.  Up to
    Python 3.10 it is the value, and the counter is [views] for "view",
    [shares] for "share", [try_ons] for "try_on".  From Python 3.11 on it is
    the member, the path is [analytics.EventType.<NAME>s], and [views],
    [try_ons], [shares] and [conversions] stay as they were: a share on an
    item with [shares = 2] leaves [shares = 2]. *)
Theorem track_event_spec (env : Env) (event : AnalyticsEventCreate.t) (db : DB) :
  nanoid_contract env 16 →
  let name :=
    format_EventType (python env) (AnalyticsEventCreate.event_type event) +:+ "s" in
  let out := track_event env event db in
  out.1 = Ok (MessageResponse.mk true "Event tracked successfully") ∧
  (∃ e, analytics_events out.2 = analytics_events db ++ [e] ∧
        String.length (EventDoc.event_id e) = 16%nat ∧
        EventDoc.timestamp e = utcnow env ∧
        EventDoc.jewelry_id e = AnalyticsEventCreate.jewelry_id event ∧
        EventDoc.event_type e = AnalyticsEventCreate.event_type event) ∧
  match stored (AnalyticsEventCreate.jewelry_id event) db with
  | Some item =>
      ∃ l1 l2 item',
        jewelry_items db = l1 ++ item :: l2 ∧
        jewelry_items out.2 = l1 ++ item' :: l2 ∧
        stored (AnalyticsEventCreate.jewelry_id event) out.2 = Some item' ∧
        item' = JewelryDoc.with_analytics (JewelryDoc.analytics item') item ∧
        let a := JewelryDoc.analytics item in
        let a' := JewelryDoc.analytics item' in
        a' = Analytics.inc name 1 a ∧
        Analytics.get name a' = Analytics.get name a + 1 ∧
        (∀ other, other ≠ name → Analytics.get other a' = Analytics.get other a) ∧
        Analytics.revenue_generated a' = Analytics.revenue_generated a ∧
        match python env with
        | Python_3_10 =>
            (AnalyticsEventCreate.event_type event = VIEW →
             Analytics.views a' = Analytics.views a + 1) ∧
            (AnalyticsEventCreate.event_type event = SHARE →
             Analytics.shares a' = Analytics.shares a + 1) ∧
            (AnalyticsEventCreate.event_type event = TRY_ON →
             Analytics.try_ons a' = Analytics.try_ons a + 1)
        | Python_3_11 =>
            name = "EventType."
                   +:+ EventType_name (AnalyticsEventCreate.event_type event) +:+ "s" ∧
            Analytics.views a' = Analytics.views a ∧
            Analytics.shares a' = Analytics.shares a ∧
            Analytics.try_ons a' = Analytics.try_ons a ∧
            Analytics.conversions a' = Analytics.conversions a
        end
  | None => jewelry_items out.2 = jewelry_items db
  end.
Proof.
  intros Hid name out.
  set (id := AnalyticsEventCreate.jewelry_id event).
  set (u := Inc ("analytics." +:+ name) 1).
  assert (Hout : out = (Ok (MessageResponse.mk true "Event tracked successfully"),
                        (update_one (by_item_id id) u (insert_one_event
                           (EventDoc.mk (generate env 16) id
                              (AnalyticsEventCreate.event_type event) (utcnow env)
                              (AnalyticsEventCreate.session_id event)
                              (match AnalyticsEventCreate.user_data event with
                               | Some u => UserDataModel.dict u | None => [] end)
                              (match AnalyticsEventCreate.source event with
                               | Some s => SourceModel.dict s | None => [] end)
                              (AnalyticsEventCreate.duration_seconds event)
                              (match AnalyticsEventCreate.interactions event with
                               | Some i => InteractionsModel.dict i | None => [] end))
                           db).2).2)) by reflexivity.
  rewrite Hout. clear Hout out. split; [done|]. split.
  - eexists. split; [reflexivity|]. simpl. by repeat split.
  - assert (Hu : ∀ d, apply_update u d
                      = JewelryDoc.with_analytics
                          (Analytics.inc name 1 (JewelryDoc.analytics d)) d).
    { intros d. subst u name.
      by destruct (python env), (AnalyticsEventCreate.event_type event). }
    assert (Hname : name ≠ "revenue_generated").
    { subst name. by destruct (python env), (AnalyticsEventCreate.event_type event). }
    destruct (stored id db) as [item|] eqn:Hs.
    + set (db1 := (insert_one_event _ db).2).
      assert (Hs1 : stored id db1 = Some item) by exact Hs.
      destruct (stored_after_update id u db1 item Hs1) as (Hst & l1 & l2 & Hl & Hl').
      exists l1, l2, (apply_update u item).
      split; [exact Hl|]. split; [exact Hl'|]. split; [exact Hst|].
      rewrite Hu. simpl. split; [done|]. split; [done|].
      split; [by apply analytics_get_inc|].
      split; [intros other Ho; by apply analytics_get_inc_other|].
      subst name.
      destruct (python env), (AnalyticsEventCreate.event_type event); by repeat split.
    + simpl. apply update_first_absent. exact Hs.
Qed.

Lemma track_event_spec_witness :
  let db := mkDB [sample_doc "AAAAAAAA" 100 "active" (Analytics.mk 7 1 2 0 0%Q ∅)] [] in
  let out := track_event (sample_env 200) (sample_event "AAAAAAAA" SHARE) db in
  nanoid_contract (sample_env 200) 16 ∧
  out.1 = Ok (MessageResponse.mk true "Event tracked successfully") ∧
  ∃ item',
    stored "AAAAAAAA" out.2 = Some item' ∧
    Analytics.shares (JewelryDoc.analytics item') = 2 ∧
    Analytics.get "EventType.SHAREs" (JewelryDoc.analytics item') = 1.
Proof.
  split; [reflexivity|].
  pose proof (track_event_spec (sample_env 200) (sample_event "AAAAAAAA" SHARE)
                (mkDB [sample_doc "AAAAAAAA" 100 "active" (Analytics.mk 7 1 2 0 0%Q ∅)] [])
                eq_refl) as (Hok & _ & H).
  split; [exact Hok|].
  match type of H with
  | match ?s with _ => _ end =>
      change s with (Some (sample_doc "AAAAAAAA" 100 "active" (Analytics.mk 7 1 2 0 0%Q ∅)))
        in H
  end.
  destruct H as (l1 & l2 & item' & _ & _ & Hst & _ & _ & Hget & _ & _ & _ & _ & Hsh & _).
  exists item'. split; [exact Hst|]. split; [exact Hsh|exact Hget].
Defined.

(** The example of the specification on both interpreter families: a share
    on an item whose [shares] is 2 leaves it at 3 up to Python 3.10 and at 2
    from Python 3.11 on, where the field [EventType.SHAREs] is created
    instead; the same event for an unknown item is stored and answered with
    success, the catalog untouched. *)
Example track_share_example :
  let db := mkDB [sample_doc "AAAAAAAA" 100 "active" (Analytics.mk 7 1 2 0 0%Q ∅)] [] in
  let old := track_event (sample_env_3_10 200) (sample_event "AAAAAAAA" SHARE) db in
  let hit := track_event (sample_env 200) (sample_event "AAAAAAAA" SHARE) db in
  let miss := track_event (sample_env 200) (sample_event "ZZZZZZZZ" SHARE) db in
  (Analytics.shares ∘ JewelryDoc.analytics) <$> stored "AAAAAAAA" old.2 = Some 3 ∧
  (Analytics.shares ∘ JewelryDoc.analytics) <$> stored "AAAAAAAA" hit.2 = Some 2 ∧
  (Analytics.extra ∘ JewelryDoc.analytics) <$> stored "AAAAAAAA" hit.2
  = Some {["EventType.SHAREs" := 1]} ∧
  miss.1 = Ok (MessageResponse.mk true "Event tracked successfully") ∧
  jewelry_items miss.2 = jewelry_items db ∧
  length (analytics_events miss.2) = 1%nat.
Proof. by repeat split. Qed.

(** ** Sorting, skipping and limiting *)

Global Instance sort_order_trans {A} (key : A → Z) (direction : Z) :
  Transitive (sort_order key direction).
Proof. intros a b c. unfold sort_order. case_match; lia. Qed.

Global Instance sort_order_total {A} (key : A → Z) (direction : Z) :
  Total (sort_order key direction).
Proof. intros a b. unfold sort_order. case_match; lia. Qed.

Lemma sorted_by_descending {A} (key : A → Z) (l : list A) :
  StronglySorted (descending key) (sorted_by (Some (key, -1)) l) ∧
  sorted_by (Some (key, -1)) l ≡ₚ l.
Proof.
  split.
  - exact (StronglySorted_merge_sort (sort_order key (-1)) l).
  - apply merge_sort_Permutation.
Qed.

Lemma limited_positive {A} (n : Z) (l : list A) :
  0 < n → limited n l = take (Z.to_nat n) l.
Proof.
  intros H. unfold limited. destruct (Z.eqb_spec n 0); [lia|].
  by rewrite Z.abs_eq by lia.
Qed.

(** A descending list cut in two: everything kept is at least as large as
    everything cut off. *)
Lemma descending_take_drop {A} (key : A → Z) (l : list A) (n : nat) (x y : A) :
  StronglySorted (descending key) l →
  x ∈ take n l → y ∈ drop n l → key y <= key x.
Proof.
  intros Hs Hx Hy. rewrite <- (take_drop n l) in Hs.
  exact (StronglySorted_app_1_elem_of _ _ _ _ _ Hs Hx Hy).
Qed.

Lemma sumZ_ones {A} (l : list A) : sumZ (map (λ _, 1) l) = Z.of_nat (length l).
Proof. induction l as [|x l IH]; simpl; [done|]. rewrite IH. lia. Qed.

(** ** Rounding to two decimals *)




(** ** Binary64: rounding to nearest *)

(** The number of binary digits of a mantissa. *)



























(** ** GetOverallAnalytics *)

Lemma matches_active_query (d : JewelryDoc.t) : matches active_query d = is_active d.
Proof. unfold matches, active_query, is_active. simpl. apply andb_true_r. Qed.

Lemma filter_active (l : list JewelryDoc.t) :
  filter (λ d, matches active_query d = true) l = filter (λ d, is_active d = true) l.
Proof. apply list_filter_iff. intros d. by rewrite matches_active_query. Qed.

(** A quotient of 0 is the double 0, and stays 0 through the product and the
    rounding. *)
Lemma rate_without_conversions (try_ons : Z) :
  0 < try_ons →
  number_value
    (round_number2 (PyFloat (float_mul (true_divide 0 try_ons) (float_of_int 100))))
  = 0%Q.
Proof. intros H. by destruct try_ons. Qed.

Lemma get_overall_analytics_totals db :
  let active := active_items db in
  let a := map JewelryDoc.analytics active in
  let try_ons := sumZ (map Analytics.try_ons a) in
  let conversions := sumZ (map Analytics.conversions a) in
  ∃ resp,
    get_overall_analytics db = (Ok resp, db) ∧
    OverallResponse.success resp = true ∧
    OverallResponse.total_items resp = Z.of_nat (length active) ∧
    OverallResponse.total_views resp = sumZ (map Analytics.views a) ∧
    OverallResponse.total_try_ons resp = try_ons ∧
    OverallResponse.total_shares resp = sumZ (map Analytics.shares a) ∧
    OverallResponse.total_conversions resp = conversions ∧
    OverallResponse.total_revenue resp = sumQ (map Analytics.revenue_generated a) ∧
    OverallResponse.conversion_rate resp
    = number_value
        (round_number2
           (if try_ons >? 0
            then PyFloat (float_mul (true_divide conversions try_ons) (float_of_int 100))
            else PyInt 0)) ∧
    OverallResponse.top_items resp = take 5 (sorted_by (Some (try_ons_key, -1)) active).
Proof.
  intros active a try_ons conversions.
  set (result := match active with [] => [] | _ => [group_all active] end).
  assert (Hget : ∀ {A} (proj : Summary → A) (zero : A),
             proj (group_all []) = zero →
             summary_get proj zero (take 1 result) = proj (group_all active)).
  { intros A proj zero H0. subst result. by destruct active. }
  eexists. split.
  { unfold get_overall_analytics, try_except, bind, aggregate_match_group, sort, limit,
      to_list, ret, run_cursor, find.
    cbn [c_skip c_limit c_sort c_filter c_collection fits_int64 Z.abs negb andb].
    change (5 <? 0) with false. cbv iota.
    change (negb (fits_int64 0 && fits_int64 (Z.abs 5))) with false. cbv iota.
    rewrite filter_active. fold (active_items db). fold active.
    rewrite limited_positive by lia. rewrite drop_0, take_take.
    change (Z.to_nat 5 `min` Z.to_nat 5)%nat with 5%nat.
    fold result. reflexivity. }
  cbn [OverallResponse.success OverallResponse.total_items OverallResponse.total_views
       OverallResponse.total_try_ons OverallResponse.total_shares
       OverallResponse.total_conversions OverallResponse.total_revenue
       OverallResponse.conversion_rate OverallResponse.top_items].
  rewrite !(Hget Z) by done. rewrite (Hget Q) by done.
  rewrite filter_active. fold (active_items db). fold active.
  split; [done|]. split; [apply sumZ_ones|]. by repeat split.
Qed.


(** The example of the specification, and three rates at which rounding the
    double differs from rounding the exact quotient: 1/20000, 3/20000 and
    5/20000 of 100 are answered 0.01, 0.01 and 0.03. *)
Example overall_analytics_example :
  (∃ resp,
     get_overall_analytics sample_db_conversions = (Ok resp, sample_db_conversions) ∧
     OverallResponse.total_items resp = 2 ∧
     OverallResponse.total_try_ons resp = 10 ∧
     OverallResponse.total_conversions resp = 2 ∧
     (OverallResponse.conversion_rate resp == 20)%Q ∧
     map JewelryDoc.item_id (OverallResponse.top_items resp) = ["AAAAAAAA"; "BBBBBBBB"]) ∧
  map (λ c, round_float2 (float_mul (true_divide c 20000) (float_of_int 100))) [1; 3; 5]
  = map nearest_float [1 # 100; 1 # 100; 3 # 100]%Q.
Proof.
  split; [|by vm_compute].
  eexists. split; [reflexivity|]. by repeat split.
Qed.

(** Up to 120 try-ons and as many conversions, the rate answered is within
    0.005 (and the rounding error of a double) of the exact percentage. *)
Example conversion_rate_near_exact :
  forallb (λ t,
     forallb (λ c,
        let rate :=
          float_value (round_float2 (float_mul (true_divide c t) (float_of_int 100))) in
        Qle_bool (Qabs (rate - (c * 100 # Z.to_pos t))) (5000001 # 1000000000))
       (seqZ 0 (t + 1)))
    (seqZ 1 120)
  = true.
Proof. by vm_compute. Qed.


(** ** List: pagination *)

Lemma fits_int64_spec (n : Z) : fits_int64 n = true ↔ - 2 ^ 63 <= n < 2 ^ 63.
Proof. unfold fits_int64. rewrite andb_true_iff, Z.leb_le, Z.ltb_lt. done. Qed.

(** What the driver does with a skip and a limit that are not negative. *)
Lemma sent_in_range (skip_ limit_ : Z) :
  0 <= skip_ → 0 <= limit_ →
  negb (fits_int64 skip_ && fits_int64 (Z.abs limit_))
  = negb ((skip_ <? 2 ^ 63) && (limit_ <? 2 ^ 63)).
Proof.
  intros Hs Hl. rewrite Z.abs_eq by done. unfold fits_int64.
  destruct (Z.leb_spec (- 2 ^ 63) skip_); [|lia].
  destruct (Z.leb_spec (- 2 ^ 63) limit_); [|lia]. done.
Qed.

Local Ltac cursor_fields := cbn [c_skip c_limit c_sort c_filter c_collection].

Lemma get_all_jewelry_ok page page_size type status db :
  0 <= (page - 1) * page_size < 2 ^ 63 → 0 < page_size < 2 ^ 63 →
  get_all_jewelry page page_size type status db
  = (Ok (ListResponse.mk true
           (list_items page page_size type status db)
           (Z.of_nat (length (list_items page page_size type status db)))
           page page_size
           (Z.of_nat (length (matching type status db)))
           ((Z.of_nat (length (matching type status db)) + page_size - 1) / page_size)),
     db).
Proof.
  intros Hskip Hsize.
  unfold get_all_jewelry, try_except, bind, skip, limit, sort, to_list, count_documents,
    floordiv, run_cursor, find, ret, raise.
  destruct (Z.ltb_spec ((page - 1) * page_size) 0); [lia|]. cursor_fields.
  destruct (Z.ltb_spec page_size 0); [lia|]. cursor_fields.
  rewrite sent_in_range by lia.
  destruct (Z.ltb_spec ((page - 1) * page_size) (2 ^ 63)); [|lia].
  destruct (Z.ltb_spec page_size (2 ^ 63)); [|lia]. cbn [andb negb]. cursor_fields.
  destruct (Z.eqb_spec page_size 0); [lia|].
  rewrite limited_positive, take_take, Nat.min_id by lia. reflexivity.
Qed.

Lemma get_all_jewelry_negative_skip page page_size type status db :
  (page - 1) * page_size < 0 →
  get_all_jewelry page page_size type status db
  = (Raise (HTTPException 500 (StrOf (ValueError "skip must be >= 0"))), db).
Proof.
  intros Hskip.
  unfold get_all_jewelry, try_except, bind, skip, raise. simpl.
  by destruct (Z.ltb_spec ((page - 1) * page_size) 0); [|lia].
Qed.

Lemma get_all_jewelry_negative_length page page_size type status db :
  0 <= (page - 1) * page_size → page_size < 0 →
  get_all_jewelry page page_size type status db
  = (Raise (HTTPException 500 (StrOf (ValueError "length must be non-negative"))), db).
Proof.
  intros Hskip Hsize.
  unfold get_all_jewelry, try_except, bind, skip, limit, sort, to_list, ret, raise.
  destruct (Z.ltb_spec ((page - 1) * page_size) 0); [lia|]. cursor_fields.
  by destruct (Z.ltb_spec page_size 0); [|lia].
Qed.

(** A skip or a limit of 64 bits or more is refused by the driver when the
    query is sent. *)
Lemma get_all_jewelry_overflow page page_size type status db :
  0 <= (page - 1) * page_size → 0 <= page_size →
  2 ^ 63 <= (page - 1) * page_size ∨ 2 ^ 63 <= page_size →
  get_all_jewelry page page_size type status db
  = (Raise (HTTPException 500 (StrOf OverflowError)), db).
Proof.
  intros Hskip Hsize Hbig.
  unfold get_all_jewelry, try_except, bind, skip, limit, sort, to_list, ret, raise.
  destruct (Z.ltb_spec ((page - 1) * page_size) 0); [lia|]. cursor_fields.
  destruct (Z.ltb_spec page_size 0); [lia|]. cursor_fields.
  rewrite sent_in_range by lia.
  destruct (Z.ltb_spec ((page - 1) * page_size) (2 ^ 63));
    destruct (Z.ltb_spec page_size (2 ^ 63)); try lia; reflexivity.
Qed.

Lemma get_all_jewelry_zero_size page type status db :
  get_all_jewelry page 0 type status db
  = (Raise (HTTPException 500 (StrOf ZeroDivisionError)), db).
Proof.
  unfold get_all_jewelry, try_except, bind, skip, limit, sort, to_list, count_documents,
    floordiv, ret, raise.
  rewrite Z.mul_0_r. reflexivity.
Qed.

(** The outcome of a List call, by cases on its paging arguments. *)
Lemma get_all_jewelry_cases page page_size type status db :
  let out := get_all_jewelry page page_size type status db in
  out.2 = db ∧
  ((page_size = 0 ∧ out.1 = Raise (HTTPException 500 (StrOf ZeroDivisionError))) ∨
   (page_size ≠ 0 ∧ ((page - 1) * page_size < 0 ∨ page_size < 0) ∧
    ∃ msg, out.1 = Raise (HTTPException 500 (StrOf (ValueError msg)))) ∨
   (0 < page_size ∧ 0 <= (page - 1) * page_size ∧
    (2 ^ 63 <= (page - 1) * page_size ∨ 2 ^ 63 <= page_size) ∧
    out.1 = Raise (HTTPException 500 (StrOf OverflowError))) ∨
   (0 < page_size < 2 ^ 63 ∧ 0 <= (page - 1) * page_size < 2 ^ 63 ∧
    ∃ resp, out.1 = Ok resp)).
Proof.
  intros out. subst out.
  destruct (Z.eq_dec page_size 0) as [->|Hnz].
  { rewrite get_all_jewelry_zero_size. split; [done|]. by left. }
  destruct (Z_lt_ge_dec ((page - 1) * page_size) 0) as [Hskip|Hskip].
  { rewrite get_all_jewelry_negative_skip by done. split; [done|].
    right. left. eauto. }
  destruct (Z_lt_ge_dec page_size 0) as [Hsize|Hsize].
  { rewrite get_all_jewelry_negative_length by lia. split; [done|].
    right. left. eauto 6. }
  destruct (Z_lt_ge_dec ((page - 1) * page_size) (2 ^ 63)) as [Hs|Hs];
    [destruct (Z_lt_ge_dec page_size (2 ^ 63)) as [Hp|Hp]|].
  - rewrite get_all_jewelry_ok by lia. split; [done|].
    right. right. right. split; [lia|]. split; [lia|]. eauto.
  - rewrite get_all_jewelry_overflow by lia. split; [done|].
    right. right. left. split; [lia|]. split; [lia|]. split; [lia|]. eauto.
  - rewrite get_all_jewelry_overflow by lia. split; [done|].
    right. right. left. split; [lia|]. split; [lia|]. split; [lia|]. eauto.
Qed.

Lemma get_all_jewelry_read_only page page_size type status db :
  (get_all_jewelry page page_size type status db).2 = db.
Proof. exact (proj1 (get_all_jewelry_cases page page_size type status db)). Qed.

(** C4 (as the code has it: pages are numbered from 1, and the skip and the
    limit are sent as 64-bit integers).  For every page of at least 1 and
    positive page size, with [page_size] and [(page - 1) * page_size] below
    [2 ^ 63], List answers with the matching items ordered by [created_at]
    descending, [(page - 1) * page_size] of them skipped and at most
    [page_size] kept; [count] is the number of returned items, [total_count]
    the number of all matching items and [total_pages] the ceiling of
    [total_count / page_size].  With 45 matching items, page 1 of size 20 has
    [total_pages = 3] and [count = 20]. *)
Theorem list_pagination (page page_size : Z) (type status : option string) (db : DB) :
  1 <= page → 0 < page_size < 2 ^ 63 → (page - 1) * page_size < 2 ^ 63 →
  let all := matching type status db in
  let ordered := sorted_by (Some (JewelryDoc.created_at, -1)) all in
  ∃ resp,
    get_all_jewelry page page_size type status db = (Ok resp, db) ∧
    StronglySorted (descending JewelryDoc.created_at) ordered ∧
    ordered ≡ₚ all ∧
    ListResponse.items resp
    = take (Z.to_nat page_size) (drop (Z.to_nat ((page - 1) * page_size)) ordered) ∧
    ListResponse.success resp = true ∧
    ListResponse.page resp = page ∧
    ListResponse.page_size resp = page_size ∧
    ListResponse.count resp = Z.of_nat (length (ListResponse.items resp)) ∧
    ListResponse.total_count resp = Z.of_nat (length all) ∧
    (ListResponse.total_pages resp - 1) * page_size
      < ListResponse.total_count resp <= ListResponse.total_pages resp * page_size ∧
    (page = 1 → page_size = 20 → length all = 45%nat →
     ListResponse.total_pages resp = 3 ∧ ListResponse.count resp = 20).
Proof.
  intros Hpage Hsize Hskip all ordered.
  destruct (sorted_by_descending JewelryDoc.created_at all) as [Hsorted Hperm].
  eexists. split; [apply get_all_jewelry_ok; nia|]. simpl.
  fold all. fold ordered.
  split; [exact Hsorted|]. split; [exact Hperm|].
  do 6 (split; [reflexivity|]). split.
  - set (n := Z.of_nat (length all)).
    pose proof (Z.div_mod (n + page_size - 1) page_size ltac:(lia)) as Hdiv.
    pose proof (Z.mod_pos_bound (n + page_size - 1) page_size ltac:(lia)) as Hmod.
    nia.
  - intros -> -> Hlen. unfold list_items. fold all. fold ordered.
    rewrite Hlen. split; [reflexivity|].
    rewrite length_take, length_drop.
    replace (length ordered) with 45%nat
      by (rewrite <- Hlen; symmetry; apply Permutation_length, Hperm).
    reflexivity.
Qed.

Lemma list_pagination_witness :
  1 <= 1 ∧ 0 < 20 < 2 ^ 63 ∧ (1 - 1) * 20 < 2 ^ 63 ∧
  ∃ resp,
    get_all_jewelry 1 20 None (Some "active") (sample_db_of_size 45)
    = (Ok resp, sample_db_of_size 45) ∧
    ListResponse.total_pages resp = 3 ∧ ListResponse.count resp = 20.
Proof.
  split; [lia|]. split; [lia|]. split; [lia|].
  destruct (list_pagination 1 20 None (Some "active") (sample_db_of_size 45)
              ltac:(lia) ltac:(lia) ltac:(lia))
    as (resp & Hrun & _ & _ & _ & _ & _ & _ & _ & _ & _ & Hex).
  exists resp. split; [exact Hrun|].
  apply Hex; reflexivity.
Defined.

(** Page 0 is refused: the skip would be negative.  So is a page size of
    [2 ^ 63] on page 1: the limit does not fit the 64 bits it is sent in. *)
Lemma list_page_zero_fails :
  0 < 20 ∧
  (get_all_jewelry 0 20 None (Some "active") sample_db).1
  = Raise (HTTPException 500 (StrOf (ValueError "skip must be >= 0"))) ∧
  (¬ ∃ resp db', get_all_jewelry 0 20 None (Some "active") sample_db = (Ok resp, db')) ∧
  0 < 2 ^ 63 ∧
  (get_all_jewelry 1 (2 ^ 63) None (Some "active") sample_db).1
  = Raise (HTTPException 500 (StrOf OverflowError)).
Proof.
  split; [lia|]. split; [reflexivity|]. split; [by intros (resp & db' & Hresp)|].
  split; [lia|]. by rewrite get_all_jewelry_overflow by lia.
Qed.

(** C9 (as the code has it).  With [page_size = 0] List never returns a
    page: the [total_pages] division raises [ZeroDivisionError], which the
    handler turns into the 500 answer, and that division error arises exactly
    when [page_size = 0].  The handler's error branch itself is reached exactly
    when [page_size <= 0] or [page <= 0], where a negative skip or a negative
    length is refused by the driver, or when [page_size] or the skip
    [(page - 1) * page_size] is [2 ^ 63] or more, where the driver cannot
    encode it; in every other case a page is returned. *)
Theorem list_page_size_zero (page page_size : Z) (type status : option string) (db : DB) :
  let out := get_all_jewelry page page_size type status db in
  (page_size = 0 →
   out = (Raise (HTTPException 500 (StrOf ZeroDivisionError)), db)) ∧
  (out.1 = Raise (HTTPException 500 (StrOf ZeroDivisionError)) ↔ page_size = 0) ∧
  ((∃ e, out.1 = Raise e)
   ↔ page_size <= 0 ∨ page <= 0 ∨ 2 ^ 63 <= page_size ∨ 2 ^ 63 <= (page - 1) * page_size) ∧
  ((∃ resp, out.1 = Ok resp)
   ↔ 0 < page_size < 2 ^ 63 ∧ 1 <= page ∧ (page - 1) * page_size < 2 ^ 63).
Proof.
  intros out.
  split; [intros ->; apply get_all_jewelry_zero_size|].
  destruct (get_all_jewelry_cases page page_size type status db)
    as [_ [[Hz H]|[(Hnz & Hneg & msg & H)|[(Hpos & Hskip & Hbig & H)
                                          |(Hpos & Hskip & resp & H)]]]];
    fold out in H; rewrite H.
  - split; [done|]. split.
    + split; [lia|eauto].
    + split; [by intros [? ?]|lia].
  - split; [split; [done|lia]|]. split.
    + split; [nia|eauto].
    + split; [by intros [? ?]|nia].
  - split; [split; [done|lia]|]. split.
    + split; [lia|eauto].
    + split; [by intros [? ?]|lia].
  - split; [split; [done|lia]|]. split.
    + split; [by intros [? ?]|nia].
    + split; [nia|eauto].
Qed.

Lemma list_page_size_zero_witness :
  get_all_jewelry 3 0 None (Some "active") sample_db
  = (Raise (HTTPException 500 (StrOf ZeroDivisionError)), sample_db).
Proof.
  exact (proj1 (list_page_size_zero 3 0 None (Some "active") sample_db) eq_refl).
Defined.

(** The error branch is also reached with a page size other than 0. *)
Lemma list_error_without_zero_size :
  (∃ e, (get_all_jewelry (-1) 10 None (Some "active") sample_db).1 = Raise e) ∧ 10 ≠ 0 ∧
  (∃ e, (get_all_jewelry 1 (-5) None (Some "active") sample_db).1 = Raise e) ∧ -5 ≠ 0 ∧
  (∃ e, (get_all_jewelry 1 (2 ^ 63) None (Some "active") sample_db).1 = Raise e) ∧
  2 ^ 63 ≠ 0.
Proof.
  split; [by eexists|]. split; [done|]. split; [by eexists|]. split; [done|].
  split; [|done]. rewrite get_all_jewelry_overflow by lia. by eexists.
Qed.

(** ** Update and SoftDelete *)

(** The [$set] document of [update_jewelry] acts on a stored document as the
    record-level merge. *)
Lemma apply_update_set_fields u now d :
  apply_update
    (SetFields (JewelryItemUpdate.dict_exclude_unset u ++ [("updated_at", VDate now)])) d
  = merge_update u now d.
Proof.
  destruct u as [[|?] [|?] [|?] [|?] [|?] [|?] [|?] [|?]]; reflexivity.
Qed.

Lemma stored_item_id id db d : stored id db = Some d → JewelryDoc.item_id d = id.
Proof.
  unfold stored. intros (_ & _ & _ & H & _)%find_split.
  rewrite matches_by_item_id in H. by apply String.eqb_eq.
Qed.

Lemma update_jewelry_found env id u db old :
  stored id db = Some old →
  update_jewelry env id u db
  = (Ok (ItemResponse.mk true (Some "Jewelry item updated successfully")
           (merge_update u (utcnow env) old)),
     (update_one (by_item_id id)
        (SetFields (JewelryItemUpdate.dict_exclude_unset u
                    ++ [("updated_at", VDate (utcnow env))])) db).2).
Proof.
  intros H.
  destruct (stored_after_update id
              (SetFields (JewelryItemUpdate.dict_exclude_unset u
                          ++ [("updated_at", VDate (utcnow env))])) db old H) as [Hs _].
  unfold stored in H, Hs.
  unfold update_jewelry, try_except, bind, find_one, update_one in *. rewrite H.
  cbn [snd jewelry_items] in Hs |- *. rewrite Hs.
  by rewrite apply_update_set_fields.
Qed.

Lemma update_jewelry_absent env id u db :
  stored id db = None →
  update_jewelry env id u db
  = (Raise (HTTPException 404 (Msg "Jewelry item not found")), db).
Proof.
  unfold stored. intros H.
  unfold update_jewelry, try_except, bind, find_one. by rewrite H.
Qed.

Lemma delete_jewelry_store env id db :
  (delete_jewelry env id db).2
  = (update_one (by_item_id id)
       (SetFields [("status", VStr "archived"); ("updated_at", VDate (utcnow env))]) db).2.
Proof.
  unfold delete_jewelry, try_except, bind, update_one.
  by destruct (List.find _ _).
Qed.

Lemma get_overall_analytics_read_only db : (get_overall_analytics db).2 = db.
Proof. reflexivity. Qed.

Lemma get_item_analytics_read_only id db : (get_item_analytics id db).2 = db.
Proof.
  unfold get_item_analytics, try_except, bind, find_one.
  by destruct (List.find _ _).
Qed.

(** What a request can do to the catalog: nothing, append one document, or
    rewrite the first document with a given id. *)
Lemma step_items env r db :
  jewelry_items (step env r db) = jewelry_items db ∨
  (∃ doc, jewelry_items (step env r db) = jewelry_items db ++ [doc]) ∨
  ∃ id u,
    jewelry_items (step env r db)
    = update_first (matches (by_item_id id)) (apply_update u) (jewelry_items db) ∧
    ((∃ path n, u = Inc path n) ∨
     (∃ item, r = ReqUpdate id item ∧
              u = SetFields (JewelryItemUpdate.dict_exclude_unset item
                             ++ [("updated_at", VDate (utcnow env))])) ∨
     (r = ReqDelete id ∧
      u = SetFields [("status", VStr "archived"); ("updated_at", VDate (utcnow env))])).
Proof.
  destruct r as [page page_size type status|id|item|id item|id|event|id|]; cbn [step].
  - left. by rewrite get_all_jewelry_read_only.
  - destruct (stored id db) as [d|] eqn:H.
    + right. right. exists id, (Inc "analytics.views" 1).
      rewrite (get_jewelry_by_id_found _ _ _ H). split; [done|]. left. eauto.
    + left. by rewrite (get_jewelry_by_id_absent _ _ H).
  - destruct (create_jewelry env item db) as [[resp|e] db'] eqn:H.
    + right. left. apply create_jewelry_inv in H as (_ & H & _). eauto.
    + left. revert H.
      unfold create_jewelry, try_except, bind, insert_one.
      destruct (JewelryItemCreate.get_ar_config item); simpl; [|by intros [= _ <-]].
      destruct (List.find _ _); simpl; [by intros [= _ <-]|done].
  - destruct (stored id db) as [d|] eqn:H.
    + right. right. eexists id, _.
      rewrite (update_jewelry_found _ _ _ _ _ H). split; [done|]. right. left. eauto.
    + left. by rewrite (update_jewelry_absent _ _ _ _ H).
  - right. right. eexists id, _. rewrite delete_jewelry_store. split; [done|].
    right. right. done.
  - right. right.
    exists (AnalyticsEventCreate.jewelry_id event),
      (Inc ("analytics."
            +:+ format_EventType (python env) (AnalyticsEventCreate.event_type event) +:+ "s")
         1).
    split; [done|]. left. eauto.
  - left. by rewrite get_item_analytics_read_only.
  - left. by rewrite get_overall_analytics_read_only.
Qed.

Lemma status_after_inc path n d :
  JewelryDoc.status (apply_update (Inc path n) d) = JewelryDoc.status d.
Proof. simpl. by case_match. Qed.

(** C5 (as the code has it).  No request removes or renames a catalog
    document, and the status of a document changes only through Update with
    an explicitly supplied status, which stores the supplied value whatever
    the current status is, or through SoftDelete, which stores "archived". *)
Theorem status_changes_only_by_update_or_delete
    (env : Env) (r : Request) (db : DB) (i : nat) (d : JewelryDoc.t) :
  jewelry_items db !! i = Some d →
  ∃ d',
    jewelry_items (step env r db) !! i = Some d' ∧
    JewelryDoc.item_id d' = JewelryDoc.item_id d ∧
    (JewelryDoc.status d' ≠ JewelryDoc.status d →
     (∃ u s, r = ReqUpdate (JewelryDoc.item_id d) u ∧
             JewelryItemUpdate.status u = Given s ∧
             JewelryDoc.status d' = VOpt (λ x, VStr (JewelryStatus_value x)) s) ∨
     (r = ReqDelete (JewelryDoc.item_id d) ∧ JewelryDoc.status d' = VStr "archived")).
Proof.
  intros Hd.
  destruct (step_items env r db) as [->|[[doc ->]|(id & u & -> & Hu)]].
  - exists d. by repeat split.
  - exists d. split; [by apply lookup_app_l_Some|]. by repeat split.
  - destruct (lookup_lt_is_Some_2 (update_first (matches (by_item_id id)) (apply_update u)
                                     (jewelry_items db)) i) as [d' Hd'].
    { rewrite update_first_length. by eapply lookup_lt_Some. }
    exists d'. split; [exact Hd'|].
    destruct (update_first_lookup _ _ _ _ _ _ Hd Hd') as [->|[-> Hfind]];
      [by repeat split|].
    split; [apply apply_update_item_id|].
    apply (stored_item_id id db d) in Hfind as <-.
    destruct Hu as [(path & n & ->)|[(item & -> & ->)|[-> ->]]].
    + by rewrite status_after_inc.
    + rewrite apply_update_set_fields. simpl. intros Hne. left.
      destruct (JewelryItemUpdate.status item) as [|s] eqn:Hs; [done|]. eauto.
    + intros _. right. done.
Qed.

Lemma status_changes_only_by_update_or_delete_witness :
  jewelry_items sample_db !! 0%nat = Some sample_item ∧
  ∃ d', jewelry_items (step (sample_env 200) (ReqDelete "AAAAAAAA") sample_db) !! 0%nat
        = Some d' ∧
        JewelryDoc.item_id d' = "AAAAAAAA".
Proof.
  split; [reflexivity|].
  destruct (status_changes_only_by_update_or_delete (sample_env 200)
              (ReqDelete "AAAAAAAA") sample_db 0 sample_item eq_refl)
    as (d' & Hd' & Hid & _).
  exists d'. split; [exact Hd'|exact Hid].
Defined.

(** An archived item is moved back to active, and to draft, by Update. *)
Lemma archived_item_reactivated :
  let db1 := step (sample_env 200) (ReqDelete "AAAAAAAA") sample_db in
  let db2 := step (sample_env 300)
               (ReqUpdate "AAAAAAAA" (sample_update_status ACTIVE)) db1 in
  let db3 := step (sample_env 300)
               (ReqUpdate "AAAAAAAA" (sample_update_status DRAFT)) db1 in
  JewelryDoc.status <$> stored "AAAAAAAA" db1 = Some (VStr "archived") ∧
  JewelryDoc.status <$> stored "AAAAAAAA" db2 = Some (VStr "active") ∧
  JewelryDoc.status <$> stored "AAAAAAAA" db3 = Some (VStr "draft") ∧
  ¬ status_transition_allowed (VStr "archived") (VStr "active") ∧
  ¬ status_transition_allowed (VStr "archived") (VStr "draft").
Proof.
  do 3 (split; [reflexivity|]).
  split; intros [H|[[H _]|[[H _]|[H _]]]]; discriminate.
Qed.

(** C6 (as the code has it).  Update of an existing item rewrites that
    document only: every field supplied in the body takes the supplied value,
    every unset field keeps its value, [analytics], [share_link], [item_id],
    [images], [seo] and [created_at] are never touched, [updated_at] becomes
    the clock reading of the call (later than the previous value whenever
    the clock has moved past it), and the answer carries the document as
    stored afterwards.  Update of an absent id fails with 404 and leaves the
    store as it was. *)
Theorem update_merges_supplied_fields
    (env : Env) (id : string) (u : JewelryItemUpdate.t) (db : DB) :
  match stored id db with
  | Some old =>
      ∃ new l1 l2,
        update_jewelry env id u db
        = (Ok (ItemResponse.mk true (Some "Jewelry item updated successfully") new),
           mkDB (l1 ++ new :: l2) (analytics_events db)) ∧
        jewelry_items db = l1 ++ old :: l2 ∧
        stored id (mkDB (l1 ++ new :: l2) (analytics_events db)) = Some new ∧
        new = merge_update u (utcnow env) old ∧
        JewelryDoc.analytics new = JewelryDoc.analytics old ∧
        JewelryDoc.share_link new = JewelryDoc.share_link old ∧
        JewelryDoc.item_id new = JewelryDoc.item_id old ∧
        JewelryDoc.images new = JewelryDoc.images old ∧
        JewelryDoc.seo new = JewelryDoc.seo old ∧
        JewelryDoc.created_at new = JewelryDoc.created_at old ∧
        (JewelryItemUpdate.name u = Unset → JewelryDoc.name new = JewelryDoc.name old) ∧
        (JewelryItemUpdate.type u = Unset → JewelryDoc.type new = JewelryDoc.type old) ∧
        (JewelryItemUpdate.description u = Unset →
         JewelryDoc.description new = JewelryDoc.description old) ∧
        (JewelryItemUpdate.price u = Unset → JewelryDoc.price new = JewelryDoc.price old) ∧
        (JewelryItemUpdate.metadata u = Unset →
         JewelryDoc.metadata new = JewelryDoc.metadata old) ∧
        (JewelryItemUpdate.ar_config u = Unset →
         JewelryDoc.ar_config new = JewelryDoc.ar_config old) ∧
        (JewelryItemUpdate.stock u = Unset → JewelryDoc.stock new = JewelryDoc.stock old) ∧
        (JewelryItemUpdate.status u = Unset →
         JewelryDoc.status new = JewelryDoc.status old) ∧
        JewelryDoc.updated_at new = utcnow env ∧
        (JewelryDoc.updated_at old < utcnow env →
         JewelryDoc.updated_at old < JewelryDoc.updated_at new)
  | None =>
      update_jewelry env id u db
      = (Raise (HTTPException 404 (Msg "Jewelry item not found")), db)
  end.
Proof.
  destruct (stored id db) as [old|] eqn:H; [|by apply update_jewelry_absent].
  set (fields := JewelryItemUpdate.dict_exclude_unset u
                 ++ [("updated_at", VDate (utcnow env))]).
  destruct (stored_after_update id (SetFields fields) db old H)
    as (Hs & l1 & l2 & Hl & Hl').
  subst fields. rewrite apply_update_set_fields in Hs, Hl'.
  exists (merge_update u (utcnow env) old), l1, l2.
  split.
  { rewrite (update_jewelry_found _ _ _ _ _ H). f_equal.
    unfold update_one in *. cbn [snd jewelry_items] in *. by rewrite Hl'. }
  split; [exact Hl|]. split.
  { unfold stored in *. unfold update_one in Hs. cbn [snd jewelry_items] in *.
    by rewrite <- Hl'. }
  split; [done|]. do 6 (split; [done|]).
  do 8 (split; [intros Hu; simpl; by rewrite Hu|]).
  split; [done|]. by simpl.
Qed.

Lemma update_merges_supplied_fields_witness :
  ∃ new,
    (update_jewelry (sample_env 250) "AAAAAAAA" sample_update_name sample_db).1
    = Ok (ItemResponse.mk true (Some "Jewelry item updated successfully") new) ∧
    JewelryDoc.name new = VStr "New Name" ∧
    JewelryDoc.price new = JewelryDoc.price sample_item ∧
    JewelryDoc.ar_config new = JewelryDoc.ar_config sample_item ∧
    JewelryDoc.status new = JewelryDoc.status sample_item ∧
    JewelryDoc.updated_at sample_item < JewelryDoc.updated_at new.
Proof.
  pose proof (update_merges_supplied_fields (sample_env 250) "AAAAAAAA"
                sample_update_name sample_db) as H.
  change (stored "AAAAAAAA" sample_db) with (Some sample_item) in H.
  destruct H as (new & l1 & l2 & Hrun & _ & _ & Hnew & _ & _ & _ & _ & _ & _ & _ & _ & _
                 & Hprice & _ & Har & _ & Hst & _ & Hlt).
  exists new. split; [by rewrite Hrun|].
  split; [by rewrite Hnew|].
  split; [by apply Hprice|]. split; [by apply Har|]. split; [by apply Hst|].
  apply Hlt. reflexivity.
Defined.

(** An Update served at the clock reading already stored leaves [updated_at]
    equal to its previous value. *)
Lemma update_same_clock_reading :
  ∃ new,
    stored "AAAAAAAA" sample_db = Some sample_item ∧
    update_jewelry (sample_env 100) "AAAAAAAA" sample_update_name sample_db
    = (Ok (ItemResponse.mk true (Some "Jewelry item updated successfully") new),
       mkDB [new] []) ∧
    JewelryDoc.updated_at sample_item = 100 ∧
    JewelryDoc.updated_at new = 100 ∧
    ¬ JewelryDoc.updated_at sample_item < JewelryDoc.updated_at new.
Proof.
  eexists. split; [reflexivity|]. split; [reflexivity|].
  split; [reflexivity|]. split; [reflexivity|]. simpl. lia.
Qed.

(** ** Create *)

(** With an [ar_config] object in the parsed request, a fresh generated id
    and nanoid's length guarantee, Create inserts exactly one document with
    an 8-character id, the share link built from it, status "active" and
    both timestamps at the clock reading of the call. *)
Lemma create_jewelry_with_ar_config env input db a :
  JewelryItemCreate.get_ar_config input = Some a →
  stored (generate_short_code env) db = None →
  nanoid_contract env 8 →
  ∃ resp,
    create_jewelry env input db
    = (Ok resp, mkDB (jewelry_items db ++ [ItemResponse.item resp]) (analytics_events db)) ∧
    let doc := ItemResponse.item resp in
    String.length (JewelryDoc.item_id doc) = 8%nat ∧
    ShareLink.short_code (JewelryDoc.share_link doc) = JewelryDoc.item_id doc ∧
    JewelryDoc.status doc = VStr "active" ∧
    JewelryDoc.created_at doc = utcnow env ∧
    JewelryDoc.updated_at doc = utcnow env ∧
    JewelryDoc.ar_config doc = VDict (ARConfigModel.dict false a).
Proof.
  intros Ha Hfresh Hlen.
  destruct (create_jewelry_ok env input db a Ha Hfresh) as (resp & db' & Hrun).
  pose proof (create_jewelry_inv _ _ _ _ _ Hrun)
    as (_ & Hitems & Hevents & Hid & Hcode & Hstatus & Hc & Hu & _ & a' & Ha' & Har).
  exists resp. split.
  { rewrite Hrun. f_equal. destruct db'. simpl in *. by rewrite Hitems, Hevents. }
  simpl. rewrite Hid at 1. split; [exact Hlen|].
  do 4 (split; [done|]). congruence.
Qed.

(** When [ar_config] is omitted from the request, the created document holds
    the defaults declared by [ARConfigModel]. *)
Lemma create_jewelry_omitted_ar_config env input db resp db' :
  JewelryItemCreate.ar_config input = Unset →
  create_jewelry env input db = (Ok resp, db') →
  JewelryDoc.ar_config (ItemResponse.item resp)
  = VDict [("color", VStr "#FFD700"); ("size", VInt 30);
           ("position_offset", VDict [("x", VInt 0); ("y", VInt 0)]);
           ("landmarks", VList [VInt 234; VInt 454]);
           ("render_type", VStr "circle")].
Proof.
  intros Hunset (_ & _ & _ & _ & _ & _ & _ & _ & _ & a & Ha & ->)%create_jewelry_inv.
  unfold JewelryItemCreate.get_ar_config in Ha. rewrite Hunset in Ha.
  by injection Ha as <-.
Qed.

Lemma create_jewelry_null_ar_config env input db :
  JewelryItemCreate.get_ar_config input = None →
  create_jewelry env input db
  = (Raise (HTTPException 500 (StrOf (NameError "ARConfigModel"))), db).
Proof.
  intros H. unfold create_jewelry, try_except, bind. by rewrite H.
Qed.

(** C7, at a valid request whose [ar_config] is [null]: Create answers 500
    and inserts nothing, where the claim promises an inserted item with an
    8-character id, its share link, status "active" and both timestamps. *)
Theorem create_valid_input_fails (env : Env) (db : DB) :
  JewelryItemCreate.valid sample_create_null_ar_config ∧
  create_jewelry env sample_create_null_ar_config db
  = (Raise (HTTPException 500 (StrOf (NameError "ARConfigModel"))), db) ∧
  jewelry_items (create_jewelry env sample_create_null_ar_config db).2 = jewelry_items db.
Proof.
  split.
  { unfold JewelryItemCreate.valid, PriceModel.valid. simpl.
    repeat split; try lia; by vm_compute. }
  rewrite create_jewelry_null_ar_config by done. done.
Qed.

(** C8, at every request whose [ar_config] is [null]: the fallback
    [ARConfigModel().dict()] names a class main.py does not import, so Create
    raises instead of storing the documented defaults. *)
Theorem create_null_ar_config_raises
    (env : Env) (input : JewelryItemCreate.t) (db : DB) :
  JewelryItemCreate.ar_config input = Given None →
  create_jewelry env input db
  = (Raise (HTTPException 500 (StrOf (NameError "ARConfigModel"))), db) ∧
  ¬ ∃ resp db', create_jewelry env input db = (Ok resp, db').
Proof.
  intros H.
  assert (Hrun := create_jewelry_null_ar_config env input db).
  unfold JewelryItemCreate.get_ar_config in Hrun. rewrite H in Hrun.
  specialize (Hrun eq_refl). split; [exact Hrun|].
  intros (resp & db' & Hok). congruence.
Qed.

Lemma create_null_ar_config_raises_witness :
  JewelryItemCreate.ar_config sample_create_null_ar_config = Given None ∧
  create_jewelry (sample_env 100) sample_create_null_ar_config empty_db
  = (Raise (HTTPException 500 (StrOf (NameError "ARConfigModel"))), empty_db).
Proof.
  split; [reflexivity|].
  exact (proj1 (create_null_ar_config_raises (sample_env 100)
                  sample_create_null_ar_config empty_db eq_refl)).
Defined.

(** The sample request with [ar_config] omitted is served as documented. *)
Example create_sample :
  JewelryItemCreate.valid sample_create ∧
  create_jewelry (sample_env 100) sample_create empty_db = (Ok sample_response, sample_db).
Proof.
  split; [|reflexivity].
  unfold JewelryItemCreate.valid, PriceModel.valid, ARConfigModel.valid, StockModel.valid.
  simpl. repeat split; try lia; by vm_compute.
Qed.

(** ** What one request does to the store *)

Lemma update_first_Forall2 {A} (R : A → A → Prop) (p : A → bool) (f : A → A) (l : list A) :
  (∀ x, R x x) → (∀ x, p x = true → R x (f x)) → Forall2 R l (update_first p f l).
Proof.
  intros Hrefl Hf. induction l as [|x l IH]; simpl; [constructor|].
  destruct (p x) eqn:Hx.
  - constructor; [by apply Hf|]. clear IH. induction l; constructor; auto.
  - by constructor.
Qed.

Lemma Forall2_diag {A} (R : A → A → Prop) (l : list A) : (∀ x, R x x) → Forall2 R l l.
Proof. intros H. induction l; constructor; auto. Qed.

Lemma db_eta db : mkDB (jewelry_items db) (analytics_events db) = db.
Proof. by destruct db. Qed.

Lemma update_one_absent id u db :
  stored id db = None → update_one (by_item_id id) u db = (Ok 0, db).
Proof.
  unfold stored, update_one. intros H. rewrite H.
  by rewrite update_first_absent, db_eta.
Qed.

Lemma delete_jewelry_absent env id db :
  stored id db = None →
  delete_jewelry env id db
  = (Raise (HTTPException 404 (Msg "Jewelry item not found")), db).
Proof.
  intros H. unfold delete_jewelry, try_except, bind.
  by rewrite (update_one_absent _ _ _ H).
Qed.

Lemma delete_jewelry_found env id db d :
  stored id db = Some d →
  delete_jewelry env id db
  = (Ok (MessageResponse.mk true "Jewelry item deleted successfully"),
     (update_one (by_item_id id)
        (SetFields [("status", VStr "archived"); ("updated_at", VDate (utcnow env))])
        db).2).
Proof.
  unfold stored. intros H. unfold delete_jewelry, try_except, bind, update_one.
  by rewrite H.
Qed.

Lemma create_jewelry_failed env item db e db' :
  create_jewelry env item db = (Raise e, db') → db' = db.
Proof.
  unfold create_jewelry, try_except, bind, insert_one.
  destruct (JewelryItemCreate.get_ar_config item); simpl; [|by intros [= _ <-]].
  destruct (List.find _ _); simpl; [by intros [= _ <-]|done].
Qed.

Lemma stored_none_fresh id db :
  stored id db = None → id ∉ map JewelryDoc.item_id (jewelry_items db).
Proof.
  unfold stored. intros H (d & -> & Hd)%list_elem_of_fmap.
  apply list_elem_of_In in Hd.
  pose proof (find_none _ _ H d Hd) as Hm.
  rewrite matches_by_item_id, String.eqb_refl in Hm. done.
Qed.

(** The catalog after a request: every document that was there is still
    there, in place, changed at most as [doc_change] allows, and at most one
    document, the one a successful Create returns, is added at the end. *)
Lemma step_catalog env r db :
  ∃ docs added,
    jewelry_items (step env r db) = docs ++ added ∧
    Forall2 (doc_change env r) (jewelry_items db) docs ∧
    (added = [] ∨
     ∃ item resp db', r = ReqCreate item ∧
                      create_jewelry env item db = (Ok resp, db') ∧
                      added = [ItemResponse.item resp]).
Proof.
  assert (Hsame : ∀ db', db' = db →
            ∃ docs added,
              jewelry_items db' = docs ++ added ∧
              Forall2 (doc_change env r) (jewelry_items db) docs ∧
              (added = [] ∨
               ∃ item resp db'', r = ReqCreate item ∧
                                 create_jewelry env item db = (Ok resp, db'') ∧
                                 added = [ItemResponse.item resp])).
  { intros db' ->. exists (jewelry_items db), [].
    split; [by rewrite app_nil_r|]. split; [|by left].
    apply Forall2_diag. constructor. }
  assert (Hupd : ∀ id u,
            (∀ d, JewelryDoc.item_id d = id → doc_change env r d (apply_update u d)) →
            ∃ docs added,
              jewelry_items (update_one (by_item_id id) u db).2 = docs ++ added ∧
              Forall2 (doc_change env r) (jewelry_items db) docs ∧
              (added = [] ∨
               ∃ item resp db'', r = ReqCreate item ∧
                                 create_jewelry env item db = (Ok resp, db'') ∧
                                 added = [ItemResponse.item resp])).
  { intros id u Hu. eexists _, []. split; [by rewrite app_nil_r|]. split; [|by left].
    simpl. apply update_first_Forall2; [constructor|].
    intros d Hd. apply Hu. rewrite matches_by_item_id in Hd. by apply String.eqb_eq. }
  destruct r as [page page_size type status|id|item|id item|id|event|id|]; cbn [step].
  - apply Hsame, get_all_jewelry_read_only.
  - destruct (stored id db) as [d|] eqn:H.
    + rewrite (get_jewelry_by_id_found _ _ _ H). apply Hupd.
      intros x <-. by apply change_viewed.
    + apply Hsame. by rewrite (get_jewelry_by_id_absent _ _ H).
  - destruct (create_jewelry env item db) as [[resp|e] db'] eqn:H.
    + pose proof (create_jewelry_inv _ _ _ _ _ H) as (_ & Hitems & _).
      exists (jewelry_items db), [ItemResponse.item resp].
      split; [exact Hitems|]. split; [apply Forall2_diag; constructor|].
      right. by exists item, resp, db'.
    + apply Hsame. by apply create_jewelry_failed in H.
  - destruct (stored id db) as [d|] eqn:H.
    + rewrite (update_jewelry_found _ _ _ _ _ H). apply Hupd.
      intros x <-. rewrite apply_update_set_fields. by apply change_updated.
    + apply Hsame. by rewrite (update_jewelry_absent _ _ _ _ H).
  - rewrite delete_jewelry_store. apply Hupd.
    intros x <-. by apply change_archived.
  - destruct (Hupd (AnalyticsEventCreate.jewelry_id event)
                (Inc ("analytics."
                      +:+ format_EventType (python env)
                            (AnalyticsEventCreate.event_type event) +:+ "s") 1))
      as (docs & added & Hitems & Hrest).
    { intros x Hx.
      replace (apply_update _ x)
        with (counted (format_EventType (python env)
                         (AnalyticsEventCreate.event_type event) +:+ "s") x)
        by (by destruct (python env), (AnalyticsEventCreate.event_type event)).
      by eapply change_tracked. }
    exists docs, added. split; [exact Hitems|exact Hrest].
  - apply Hsame, get_item_analytics_read_only.
  - apply Hsame, get_overall_analytics_read_only.
Qed.

Lemma step_lookup env r db i d :
  jewelry_items db !! i = Some d →
  ∃ d', jewelry_items (step env r db) !! i = Some d' ∧ doc_change env r d d'.
Proof.
  intros Hd. destruct (step_catalog env r db) as (docs & added & -> & Hdocs & _).
  destruct (Forall2_lookup_l _ _ _ _ _ Hdocs Hd) as (d' & Hd' & Hch).
  exists d'. split; [by apply lookup_app_l_Some|exact Hch].
Qed.

Lemma doc_change_item_id env r d d' :
  doc_change env r d d' → JewelryDoc.item_id d' = JewelryDoc.item_id d.
Proof. by destruct 1. Qed.

(** X1. Whatever the request, a stored document keeps its place in the
    catalog and its [item_id], [share_link], [created_at], [images] and
    [seo]: no endpoint rewrites them. *)
Theorem request_keeps_identity (env : Env) (r : Request) (db : DB) (i : nat)
    (d : JewelryDoc.t) :
  jewelry_items db !! i = Some d →
  ∃ d',
    jewelry_items (step env r db) !! i = Some d' ∧
    JewelryDoc.item_id d' = JewelryDoc.item_id d ∧
    JewelryDoc.share_link d' = JewelryDoc.share_link d ∧
    JewelryDoc.created_at d' = JewelryDoc.created_at d ∧
    JewelryDoc.images d' = JewelryDoc.images d ∧
    JewelryDoc.seo d' = JewelryDoc.seo d.
Proof.
  intros Hd. destruct (step_lookup env r db i d Hd) as (d' & Hd' & Hch).
  exists d'. split; [exact Hd'|]. by destruct Hch.
Qed.

Lemma request_keeps_identity_witness :
  jewelry_items sample_db !! 0%nat = Some sample_item ∧
  ∃ d',
    jewelry_items
      (step (sample_env 300) (ReqUpdate "AAAAAAAA" sample_update_name) sample_db) !! 0%nat
    = Some d' ∧
    JewelryDoc.share_link d' = JewelryDoc.share_link sample_item.
Proof.
  split; [reflexivity|].
  destruct (request_keeps_identity (sample_env 300)
              (ReqUpdate "AAAAAAAA" sample_update_name) sample_db 0 sample_item eq_refl)
    as (d' & Hd' & _ & Hlink & _).
  exists d'. split; [exact Hd'|exact Hlink].
Defined.

(** X2. The counters of a stored document move only under Get (its [views])
    and TrackEvent, by exactly one step of 1 and never downwards;
    [conversions] and [revenue_generated] are changed by no request at all, a
    "purchase" event included.  The one field TrackEvent increments is named
    by the interpreter's rendering of the event type followed by "s":
    [purchases] for a purchase up to Python 3.10; from Python 3.11 on it is
    [EventType.PURCHASEs], and TrackEvent moves none of [views], [try_ons],
    [shares] and leaves [purchases] as it is. *)
Theorem request_counters (env : Env) (r : Request) (db : DB) (i : nat)
    (d : JewelryDoc.t) :
  jewelry_items db !! i = Some d →
  ∃ d',
    jewelry_items (step env r db) !! i = Some d' ∧
    let a := JewelryDoc.analytics d in
    let a' := JewelryDoc.analytics d' in
    Analytics.conversions a' = Analytics.conversions a ∧
    Analytics.revenue_generated a' = Analytics.revenue_generated a ∧
    Analytics.views a <= Analytics.views a' <= Analytics.views a + 1 ∧
    Analytics.try_ons a <= Analytics.try_ons a' <= Analytics.try_ons a + 1 ∧
    Analytics.shares a <= Analytics.shares a' <= Analytics.shares a + 1 ∧
    (a' ≠ a →
     (r = ReqGet (JewelryDoc.item_id d) ∧ a' = Analytics.inc "views" 1 a) ∨
     ∃ event,
       r = ReqTrackEvent event ∧
       AnalyticsEventCreate.jewelry_id event = JewelryDoc.item_id d ∧
       a' = Analytics.inc
              (format_EventType (python env) (AnalyticsEventCreate.event_type event)
               +:+ "s") 1 a ∧
       match python env with
       | Python_3_10 =>
           AnalyticsEventCreate.event_type event = PURCHASE →
           Analytics.get "purchases" a' = Analytics.get "purchases" a + 1
       | Python_3_11 =>
           AnalyticsEventCreate.event_type event = PURCHASE →
           Analytics.get "EventType.PURCHASEs" a'
           = Analytics.get "EventType.PURCHASEs" a + 1
       end) ∧
    (∀ event,
       r = ReqTrackEvent event → python env = Python_3_11 →
       Analytics.views a' = Analytics.views a ∧
       Analytics.try_ons a' = Analytics.try_ons a ∧
       Analytics.shares a' = Analytics.shares a ∧
       Analytics.get "purchases" a' = Analytics.get "purchases" a).
Proof.
  intros Hd. destruct (step_lookup env r db i d Hd) as (d' & Hd' & Hch).
  exists d'. split; [exact Hd'|].
  destruct Hch as [|Hr|event Hr Hid|item Hr|Hr]; simpl.
  - repeat split; try lia; done.
  - repeat split; try lia; try (by subst r). intros _. by left.
  - split; [by destruct (python env), (AnalyticsEventCreate.event_type event)|].
    split; [by destruct (python env), (AnalyticsEventCreate.event_type event)|].
    split; [destruct (python env), (AnalyticsEventCreate.event_type event); simpl; lia|].
    split; [destruct (python env), (AnalyticsEventCreate.event_type event); simpl; lia|].
    split; [destruct (python env), (AnalyticsEventCreate.event_type event); simpl; lia|].
    split.
    + intros _. right. exists event. split; [done|]. split; [done|]. split; [done|].
      destruct (python env); intros ->; by apply analytics_get_inc.
    + intros event' Hr' Hpy. rewrite Hpy.
      destruct (AnalyticsEventCreate.event_type event);
        (split; [done|]); (split; [done|]); (split; [done|]);
        by apply analytics_get_inc_other.
  - repeat split; try lia; by subst r.
  - repeat split; try lia; by subst r.
Qed.

Lemma request_counters_witness :
  jewelry_items sample_db !! 0%nat = Some sample_item ∧
  ∃ d',
    jewelry_items
      (step (sample_env 300) (ReqTrackEvent (sample_event "AAAAAAAA" PURCHASE)) sample_db)
      !! 0%nat = Some d' ∧
    Analytics.conversions (JewelryDoc.analytics d') = 0.
Proof.
  split; [reflexivity|].
  destruct (request_counters (sample_env 300)
              (ReqTrackEvent (sample_event "AAAAAAAA" PURCHASE)) sample_db 0 sample_item
              eq_refl)
    as (d' & Hd' & Hconv & _).
  exists d'. split; [exact Hd'|exact Hconv].
Defined.

(** X3. The event log is append-only: a request never changes or drops a
    recorded event; TrackEvent appends exactly one, stamped with the server
    clock and the generated id, and no other request appends any. *)
Theorem events_append_only (env : Env) (r : Request) (db : DB) :
  ∃ added,
    analytics_events (step env r db) = analytics_events db ++ added ∧
    match r with
    | ReqTrackEvent event =>
        ∃ e, added = [e] ∧
             EventDoc.event_id e = generate env 16 ∧
             EventDoc.timestamp e = utcnow env ∧
             EventDoc.jewelry_id e = AnalyticsEventCreate.jewelry_id event ∧
             EventDoc.event_type e = AnalyticsEventCreate.event_type event
    | _ => added = []
    end.
Proof.
  assert (Hsame : ∀ db', analytics_events db' = analytics_events db →
            analytics_events db' = analytics_events db ++ []).
  { intros db' ->. by rewrite app_nil_r. }
  destruct r as [page page_size type status|id|item|id item|id|event|id|]; cbn [step].
  - exists []. split; [|done]. apply Hsame. by rewrite get_all_jewelry_read_only.
  - exists []. split; [|done]. apply Hsame.
    destruct (stored id db) as [d|] eqn:H.
    + by rewrite (get_jewelry_by_id_found _ _ _ H).
    + by rewrite (get_jewelry_by_id_absent _ _ H).
  - exists []. split; [|done]. apply Hsame.
    destruct (create_jewelry env item db) as [[resp|e] db'] eqn:H.
    + by apply create_jewelry_inv in H as (_ & _ & H & _).
    + by apply create_jewelry_failed in H as ->.
  - exists []. split; [|done]. apply Hsame.
    destruct (stored id db) as [d|] eqn:H.
    + by rewrite (update_jewelry_found _ _ _ _ _ H).
    + by rewrite (update_jewelry_absent _ _ _ _ H).
  - exists []. split; [|done]. apply Hsame. by rewrite delete_jewelry_store.
  - eexists. split; [reflexivity|]. eexists. split; [reflexivity|]. by repeat split.
  - exists []. split; [|done]. apply Hsame. by rewrite get_item_analytics_read_only.
  - exists []. split; [|done]. apply Hsame. by rewrite get_overall_analytics_read_only.
Qed.

Lemma create_jewelry_error env item db e db' :
  create_jewelry env item db = (Raise e, db') →
  e = HTTPException 500 (StrOf (NameError "ARConfigModel")) ∨
  e = HTTPException 500 (StrOf (DuplicateKeyError "item_id")).
Proof.
  unfold create_jewelry, try_except, bind, insert_one.
  destruct (JewelryItemCreate.get_ar_config item); simpl; [|intros [= <- _]; by left].
  destruct (List.find _ _); simpl; [intros [= <- _]; by right|done].
Qed.

(** X4. On a store that serves every operation, and with documents whose
    integers fit its 64 bits, the error answers of the handlers are these,
    and each of them leaves both collections exactly as they were: 404 from
    Get, Update, SoftDelete and GetItemAnalytics for an unknown id; 500 from
    List for a refused skip, length or limit ([ValueError], [OverflowError])
    or a zero page size ([ZeroDivisionError]); 500 from Create for the
    unimported name of the null [ar_config] branch or a used item id.
    TrackEvent and GetOverallAnalytics answer no error then, and List,
    GetItemAnalytics and GetOverallAnalytics never write.  TrackEvent writes
    twice, and a store failure between the two is not undone: when its
    [update_one] call raises, the handler answers 500 with the text of that
    exception and the event inserted before stays in [analytics_events]. *)
Theorem failed_request_changes_nothing (env : Env) (r : Request) (db : DB) :
  (∀ e, outcome env r db = Some e →
     step env r db = db ∧
     match r with
     | ReqList _ _ _ _ =>
         ∃ cause, e = HTTPException 500 (StrOf cause) ∧
                  (cause = ZeroDivisionError ∨
                   (∃ msg, cause = ValueError msg) ∨
                   cause = OverflowError)
     | ReqGet _ | ReqUpdate _ _ | ReqDelete _ | ReqItemAnalytics _ =>
         e = HTTPException 404 (Msg "Jewelry item not found")
     | ReqCreate _ =>
         e = HTTPException 500 (StrOf (NameError "ARConfigModel")) ∨
         e = HTTPException 500 (StrOf (DuplicateKeyError "item_id"))
     | ReqTrackEvent _ | ReqOverallAnalytics => False
     end) ∧
  match r with
  | ReqList _ _ _ _ | ReqItemAnalytics _ | ReqOverallAnalytics => step env r db = db
  | ReqTrackEvent event =>
      ∀ (failing : Query → Update → M Z) (cause : Exn),
        (∀ q u db0, failing q u db0 = (Raise cause, db0)) →
        ∃ doc,
          track_event_with failing env event db
          = (Raise (HTTPException 500 (StrOf cause)),
             mkDB (jewelry_items db) (analytics_events db ++ [doc])) ∧
          EventDoc.event_id doc = generate env 16 ∧
          EventDoc.jewelry_id doc = AnalyticsEventCreate.jewelry_id event ∧
          EventDoc.event_type doc = AnalyticsEventCreate.event_type event
  | _ => True
  end.
Proof.
  destruct r as [page page_size type status|id|item|id item|id|event|id|];
    cbn [step outcome].
  - split; [|apply get_all_jewelry_read_only].
    intros e He. split; [apply get_all_jewelry_read_only|].
    destruct (get_all_jewelry_cases page page_size type status db)
      as [_ [[_ H]|[(_ & _ & msg & H)|[(_ & _ & _ & H)|(_ & _ & resp & H)]]]];
      rewrite H in He; [| | |done]; injection He as <-; eauto 8.
  - split; [|done]. intros e.
    destruct (stored id db) as [d|] eqn:H.
    + by rewrite (get_jewelry_by_id_found _ _ _ H).
    + rewrite (get_jewelry_by_id_absent _ _ H). by intros [= <-].
  - split; [|done]. intros e.
    destruct (create_jewelry env item db) as [[resp|e'] db'] eqn:H; [done|].
    intros [= <-]. split; [by apply create_jewelry_failed in H|].
    by apply create_jewelry_error in H.
  - split; [|done]. intros e.
    destruct (stored id db) as [d|] eqn:H.
    + by rewrite (update_jewelry_found _ _ _ _ _ H).
    + rewrite (update_jewelry_absent _ _ _ _ H). by intros [= <-].
  - split; [|done]. intros e.
    destruct (stored id db) as [d|] eqn:H.
    + by rewrite (delete_jewelry_found _ _ _ _ H).
    + rewrite (delete_jewelry_absent _ _ _ H). by intros [= <-].
  - split; [by intros e|].
    intros failing cause Hfail. eexists. split.
    { unfold track_event_with, try_except, bind, insert_one_event.
      rewrite Hfail. reflexivity. }
    by repeat split.
  - split; [|apply get_item_analytics_read_only].
    intros e He. split; [apply get_item_analytics_read_only|].
    revert He. unfold get_item_analytics, try_except, bind, find_one.
    destruct (List.find _ _); [done|]. by intros [= <-].
  - split; [|apply get_overall_analytics_read_only]. by intros e.
Qed.

Lemma failed_request_changes_nothing_witness :
  let event := sample_event "AAAAAAAA" SHARE in
  let failing : Query → Update → M Z := λ _ _ db0, (Raise (ValueError "closed"), db0) in
  outcome (sample_env 300) (ReqDelete "missing") sample_db
  = Some (HTTPException 404 (Msg "Jewelry item not found")) ∧
  step (sample_env 300) (ReqDelete "missing") sample_db = sample_db ∧
  ∃ doc,
    track_event_with failing (sample_env 300) event sample_db
    = (Raise (HTTPException 500 (StrOf (ValueError "closed"))),
       mkDB (jewelry_items sample_db) (analytics_events sample_db ++ [doc])).
Proof.
  split; [reflexivity|]. split.
  - exact (proj1 (proj1 (failed_request_changes_nothing (sample_env 300)
                           (ReqDelete "missing") sample_db) _ eq_refl)).
  - destruct (proj2 (failed_request_changes_nothing (sample_env 300)
                       (ReqTrackEvent (sample_event "AAAAAAAA" SHARE)) sample_db)
                (λ _ _ db0, (Raise (ValueError "closed"), db0)) (ValueError "closed")
                (λ _ _ _, eq_refl))
      as (doc & Hrun & _).
    exists doc. exact Hrun.
Defined.

(** X5. Distinct item ids stay distinct: if no two documents of the catalog
    share an [item_id], no request makes two of them share one. *)
Theorem unique_ids_preserved (env : Env) (r : Request) (db : DB) :
  NoDup (map JewelryDoc.item_id (jewelry_items db)) →
  NoDup (map JewelryDoc.item_id (jewelry_items (step env r db))).
Proof.
  intros Hnodup.
  destruct (step_catalog env r db) as (docs & added & -> & Hdocs & Hadded).
  assert (Hids : map JewelryDoc.item_id docs = map JewelryDoc.item_id (jewelry_items db)).
  { clear Hadded Hnodup. induction Hdocs as [|d d' l l' Hch _ IH]; simpl; [done|].
    by rewrite IH, (doc_change_item_id _ _ _ _ Hch). }
  rewrite map_app, Hids.
  destruct Hadded as [->|(item & resp & db' & _ & Hrun & ->)].
  - by rewrite app_nil_r.
  - apply create_jewelry_inv in Hrun as (Hfresh & _).
    apply stored_none_fresh in Hfresh.
    apply NoDup_app. split; [exact Hnodup|]. split.
    + intros x Hx [->|[]%elem_of_nil]%elem_of_cons. done.
    + apply NoDup_singleton.
Qed.

Lemma unique_ids_preserved_witness :
  NoDup (map JewelryDoc.item_id (jewelry_items sample_db)) ∧
  NoDup (map JewelryDoc.item_id
           (jewelry_items (step (sample_env 300) (ReqCreate sample_create) sample_db))).
Proof.
  assert (H : NoDup (map JewelryDoc.item_id (jewelry_items sample_db))).
  { apply NoDup_singleton. }
  split; [exact H|].
  exact (unique_ids_preserved (sample_env 300) (ReqCreate sample_create) sample_db H).
Defined.

(** ** Stores reachable from the empty database *)

Lemma create_jewelry_fresh_doc env item db resp db' :
  create_jewelry env item db = (Ok resp, db') →
  JewelryDoc.share_link (ItemResponse.item resp)
  = create_share_link (JewelryDoc.item_id (ItemResponse.item resp)) ∧
  JewelryDoc.analytics (ItemResponse.item resp) = initial_analytics.
Proof.
  unfold create_jewelry, try_except, bind, insert_one.
  destruct (JewelryItemCreate.get_ar_config item) as [a|]; simpl; [|done].
  destruct (List.find _ _); simpl; [done|].
  by intros [= <- <-].
Qed.

Lemma reachable_Forall (P : JewelryDoc.t → Prop) :
  (∀ env item db resp db',
     create_jewelry env item db = (Ok resp, db') → P (ItemResponse.item resp)) →
  (∀ env r d d', P d → doc_change env r d d' → P d') →
  ∀ db, reachable db → Forall P (jewelry_items db).
Proof.
  intros Hnew Hkeep db Hdb. induction Hdb as [|env r db _ IH]; [constructor|].
  destruct (step_catalog env r db) as (docs & added & -> & Hdocs & Hadded).
  apply Forall_app. split.
  - clear Hadded. induction Hdocs as [|d d' l l' Hch _ IHl]; [constructor|].
    apply Forall_cons in IH as [Hd Hl]. constructor; eauto.
  - destruct Hadded as [->|(item & resp & db' & _ & Hrun & ->)]; [constructor|].
    repeat constructor. eauto.
Qed.

Lemma reachable_unique_ids db :
  reachable db → NoDup (map JewelryDoc.item_id (jewelry_items db)).
Proof.
  induction 1 as [|env r db _ IH]; [constructor|].
  destruct (step_catalog env r db) as (docs & added & -> & Hdocs & Hadded).
  assert (Hids : map JewelryDoc.item_id docs = map JewelryDoc.item_id (jewelry_items db)).
  { clear Hadded IH. induction Hdocs as [|d d' l l' Hch _ IHl]; simpl; [done|].
    by rewrite IHl, (doc_change_item_id _ _ _ _ Hch). }
  rewrite map_app, Hids.
  destruct Hadded as [->|(item & resp & db' & _ & Hrun & ->)]; [by rewrite app_nil_r|].
  apply create_jewelry_inv in Hrun as (Hfresh%stored_none_fresh & _).
  apply NoDup_app. split; [exact IH|]. split; [|apply NoDup_singleton].
  intros x Hx [->|[]%elem_of_nil]%elem_of_cons. done.
Qed.

(** X6. In every store that arises from the empty database by serving
    requests, item ids are pairwise distinct, every document still carries
    the share link built from its own id, and every counter is
    non-negative. *)
Theorem reachable_catalog_invariant (db : DB) :
  reachable db →
  NoDup (map JewelryDoc.item_id (jewelry_items db)) ∧
  Forall (λ d,
            JewelryDoc.share_link d = create_share_link (JewelryDoc.item_id d) ∧
            ShareLink.short_code (JewelryDoc.share_link d) = JewelryDoc.item_id d ∧
            ∀ name, 0 <= Analytics.get name (JewelryDoc.analytics d))
         (jewelry_items db).
Proof.
  intros Hdb. split; [by apply reachable_unique_ids|].
  revert db Hdb. apply reachable_Forall.
  - intros env item db resp db' [-> ->]%create_jewelry_fresh_doc.
    split; [done|]. split; [done|].
    intros name. unfold Analytics.get, initial_analytics. simpl.
    repeat case_match; try lia. by rewrite lookup_empty.
  - intros env r d d' (Hlink & Hcode & Hpos) Hch.
    assert (Hinc : ∀ n name, n ≠ "revenue_generated" →
              0 <= Analytics.get name (Analytics.inc n 1 (JewelryDoc.analytics d))).
    { intros n name Hn. destruct (decide (name = n)) as [->|Hne].
      - rewrite analytics_get_inc by done. specialize (Hpos n). lia.
      - by rewrite analytics_get_inc_other. }
    destruct Hch as [|Hr|event Hr Hid|item Hr|Hr]; simpl.
    + done.
    + split; [done|]. split; [done|]. intros name. by apply Hinc.
    + split; [done|]. split; [done|]. intros name. apply Hinc.
      by destruct (python env), (AnalyticsEventCreate.event_type event).
    + done.
    + done.
Qed.

Lemma reachable_sample_db : reachable sample_db.
Proof.
  exact (reachable_step (sample_env 100) (ReqCreate sample_create) empty_db
           reachable_empty).
Qed.

Lemma reachable_catalog_invariant_witness :
  reachable sample_db ∧ NoDup (map JewelryDoc.item_id (jewelry_items sample_db)).
Proof.
  split; [exact reachable_sample_db|].
  exact (proj1 (reachable_catalog_invariant sample_db reachable_sample_db)).
Defined.

Lemma sumZ_zero {A} (f : A → Z) (l : list A) :
  Forall (λ x, f x = 0) l → sumZ (map f l) = 0.
Proof. induction 1 as [|x l Hx _ IH]; simpl; [done|]. by rewrite Hx, IH. Qed.

Lemma sumQ_zero {A} (f : A → Q) (l : list A) :
  Forall (λ x, f x = 0%Q) l → sumQ (map f l) = 0%Q.
Proof. induction 1 as [|x l Hx _ IH]; simpl; [done|]. by rewrite Hx, IH. Qed.

(** X7. Nothing the API offers ever records a conversion or revenue: in
    every store reachable from the empty database all [conversions] and
    [revenue_generated] fields are 0, so GetOverallAnalytics reports
    [total_conversions = 0], [total_revenue = 0] and a conversion rate of 0,
    however many purchase events were tracked. *)
Theorem reachable_no_conversions (db : DB) :
  reachable db →
  Forall (λ d, Analytics.conversions (JewelryDoc.analytics d) = 0 ∧
               Analytics.revenue_generated (JewelryDoc.analytics d) = 0%Q)
         (jewelry_items db) ∧
  ∃ resp,
    get_overall_analytics db = (Ok resp, db) ∧
    OverallResponse.total_conversions resp = 0 ∧
    OverallResponse.total_revenue resp = 0%Q ∧
    (OverallResponse.conversion_rate resp == 0)%Q.
Proof.
  intros Hdb.
  assert (Hall : Forall (λ d, Analytics.conversions (JewelryDoc.analytics d) = 0 ∧
                              Analytics.revenue_generated (JewelryDoc.analytics d) = 0%Q)
                        (jewelry_items db)).
  { revert db Hdb. apply reachable_Forall.
    - by intros env item db resp db' [_ ->]%create_jewelry_fresh_doc.
    - intros env r d d' [Hc Hr] Hch.
      destruct Hch as [|?|event ? ?|item ?|?]; simpl; try done.
      by destruct (python env), (AnalyticsEventCreate.event_type event). }
  split; [exact Hall|].
  destruct (get_overall_analytics_totals db)
    as (resp & Hrun & _ & _ & _ & Htry & _ & Hconv & Hrev & Hrate & _).
  assert (Hactive : Forall (λ d, Analytics.conversions (JewelryDoc.analytics d) = 0 ∧
                                 Analytics.revenue_generated (JewelryDoc.analytics d) = 0%Q)
                           (active_items db)).
  { apply Forall_forall. intros d [_ Hd]%list_elem_of_filter.
    by apply (proj1 (Forall_forall _ _) Hall). }
  assert (Hc0 : sumZ (map Analytics.conversions
                        (map JewelryDoc.analytics (active_items db))) = 0).
  { rewrite map_map. apply sumZ_zero. eapply Forall_impl; [exact Hactive|]. by intros d []. }
  assert (Hr0 : sumQ (map Analytics.revenue_generated
                        (map JewelryDoc.analytics (active_items db))) = 0%Q).
  { rewrite map_map. apply sumQ_zero. eapply Forall_impl; [exact Hactive|]. by intros d []. }
  exists resp. split; [exact Hrun|].
  split; [by rewrite Hconv|]. split; [by rewrite Hrev|].
  rewrite Hrate, Hc0.
  destruct (Z.gtb_spec (sumZ (map Analytics.try_ons
                                (map JewelryDoc.analytics (active_items db)))) 0);
    [|reflexivity].
  by rewrite rate_without_conversions.
Qed.

Lemma reachable_no_conversions_witness :
  let db := step (sample_env 300) (ReqTrackEvent (sample_event "AAAAAAAA" PURCHASE))
              sample_db in
  reachable db ∧
  ∃ resp, get_overall_analytics db = (Ok resp, db) ∧
          OverallResponse.total_conversions resp = 0.
Proof.
  assert (H : reachable (step (sample_env 300)
                           (ReqTrackEvent (sample_event "AAAAAAAA" PURCHASE)) sample_db)).
  { apply reachable_step, reachable_sample_db. }
  split; [exact H|].
  destruct (reachable_no_conversions _ H) as (_ & resp & Hrun & Hconv & _).
  exists resp. split; [exact Hrun|exact Hconv].
Defined.

(** ** List: filters and pages *)

Lemma is_str_eq s v : is_str s v = true → v = VStr s.
Proof. destruct v; simpl; try done. by intros ->%String.eqb_eq. Qed.

Lemma get_all_jewelry_ok_inv page page_size type status db resp db' :
  get_all_jewelry page page_size type status db = (Ok resp, db') →
  0 < page_size ∧ 0 <= (page - 1) * page_size ∧ db' = db ∧
  ListResponse.items resp = list_items page page_size type status db ∧
  ListResponse.count resp = Z.of_nat (length (list_items page page_size type status db)) ∧
  ListResponse.total_count resp = Z.of_nat (length (matching type status db)).
Proof.
  intros Hrun.
  destruct (get_all_jewelry_cases page page_size type status db)
    as [_ [[_ H]|[(_ & _ & msg & H)|[(_ & _ & _ & H)|(Hpos & Hskip & _)]]]];
    try (rewrite Hrun in H; discriminate H).
  rewrite get_all_jewelry_ok in Hrun by done.
  injection Hrun as <- <-. split; [lia|]. split; [lia|]. done.
Qed.

Lemma list_items_matching page page_size type status db x :
  x ∈ list_items page page_size type status db →
  x ∈ jewelry_items db ∧ matches (list_query type status) x = true.
Proof.
  unfold list_items. intros Hx%subseteq_take%subseteq_drop.
  destruct (sorted_by_descending JewelryDoc.created_at (matching type status db))
    as [_ Hperm].
  rewrite Hperm in Hx. apply list_elem_of_filter in Hx as [Hm Hx]. done.
Qed.

(** X8. Whatever page is asked for, a successful List writes nothing and
    returns only documents of the catalog that pass both filters: with a
    non-empty [status] every returned item has exactly that status, with a
    non-empty [type] exactly that type; it never returns more than
    [page_size] items, nor more than [total_count]. *)
Theorem list_returns_only_matching (page page_size : Z) (type status : option string)
    (db db' : DB) (resp : ListResponse.t) :
  get_all_jewelry page page_size type status db = (Ok resp, db') →
  db' = db ∧
  Forall (λ x,
            x ∈ jewelry_items db ∧
            (∀ s, status = Some s → s ≠ "" → JewelryDoc.status x = VStr s) ∧
            (∀ t, type = Some t → t ≠ "" → JewelryDoc.type x = VStr t))
         (ListResponse.items resp) ∧
  0 <= ListResponse.count resp <= page_size ∧
  ListResponse.count resp <= ListResponse.total_count resp ∧
  ListResponse.total_count resp <= Z.of_nat (length (jewelry_items db)).
Proof.
  intros (Hpos & Hskip & -> & Hitems & Hcount & Htotal)%get_all_jewelry_ok_inv.
  split; [done|]. rewrite Hitems, Hcount, Htotal. split; [|split; [|split]].
  - apply Forall_forall. intros x [Hx Hm]%list_items_matching.
    split; [exact Hx|].
    unfold matches, list_query in Hm. simpl in Hm.
    apply andb_prop in Hm as [Hs Ht].
    split.
    + intros s -> Hne. simpl in Hs.
      destruct (eqb_string_spec s ""); [done|]. by apply is_str_eq.
    + intros t -> Hne. simpl in Ht.
      destruct (eqb_string_spec t ""); [done|]. by apply is_str_eq.
  - unfold list_items. rewrite length_take. lia.
  - unfold list_items. rewrite length_take, length_drop.
    destruct (sorted_by_descending JewelryDoc.created_at (matching type status db))
      as [_ Hperm].
    rewrite (Permutation_length Hperm). lia.
  - unfold matching. pose proof (length_filter
      (λ d, matches (list_query type status) d = true) (jewelry_items db)). lia.
Qed.

Lemma list_returns_only_matching_witness :
  get_all_jewelry 1 20 None (Some "active") sample_db
  = (Ok (ListResponse.mk true [sample_item] 1 1 20 1 1), sample_db) ∧
  Forall (λ x, JewelryDoc.status x = VStr "active") [sample_item].
Proof.
  split; [reflexivity|].
  destruct (list_returns_only_matching 1 20 None (Some "active") sample_db sample_db
              (ListResponse.mk true [sample_item] 1 1 20 1 1) eq_refl)
    as (_ & Hall & _).
  eapply Forall_impl; [exact Hall|].
  intros x (_ & Hs & _). by apply Hs.
Defined.

Lemma concat_pages {A} (l : list A) (n m : nat) :
  concat (map (λ k, take n (drop (k * n) l)) (seq 0 m)) = take (m * n) l.
Proof.
  induction m as [|m IH]; [by rewrite take_0|].
  rewrite seq_S, map_app, concat_app, IH. simpl. rewrite app_nil_r.
  rewrite take_take_drop. f_equal. lia.
Qed.

(** X9. For a positive page size below [2 ^ 63] and at most [2 ^ 63]
    matching items, each of the pages 1, 2, ..., [total_pages] is answered
    with success, and their items taken one after the other are exactly the
    matching items in [created_at] descending order, each item once.  A later
    page is answered with success and an empty list as long as its skip
    [(page - 1) * page_size] is below [2 ^ 63], and with the 500 answer of an
    [OverflowError] from there on. *)
Theorem pages_cover_all (page_size : Z) (type status : option string) (db : DB) :
  0 < page_size < 2 ^ 63 →
  Z.of_nat (length (matching type status db)) <= 2 ^ 63 →
  let ordered := sorted_by (Some (JewelryDoc.created_at, -1)) (matching type status db) in
  let total_pages := (Z.of_nat (length (matching type status db)) + page_size - 1)
                     / page_size in
  (∃ answers,
     Forall2 (λ k resp,
                get_all_jewelry (Z.of_nat k + 1) page_size type status db = (Ok resp, db))
             (seq 0 (Z.to_nat total_pages)) answers ∧
     concat (map ListResponse.items answers) = ordered) ∧
  (∀ page, total_pages < page → (page - 1) * page_size < 2 ^ 63 →
     ∃ resp, get_all_jewelry page page_size type status db = (Ok resp, db) ∧
             ListResponse.items resp = [] ∧ ListResponse.count resp = 0 ∧
             ListResponse.total_pages resp = total_pages) ∧
  (∀ page, 2 ^ 63 <= (page - 1) * page_size →
     get_all_jewelry page page_size type status db
     = (Raise (HTTPException 500 (StrOf OverflowError)), db)).
Proof.
  intros Hpos Hfits ordered total_pages.
  destruct (sorted_by_descending JewelryDoc.created_at (matching type status db))
    as [_ Hperm].
  apply Permutation_length in Hperm. fold ordered in Hperm.
  set (len := Z.of_nat (length (matching type status db))) in *.
  assert (Hceil : len <= total_pages * page_size ∧ 0 <= total_pages ∧
                  (total_pages - 1) * page_size < len).
  { subst total_pages.
    pose proof (Z.div_mod (len + page_size - 1) page_size ltac:(lia)) as Hdiv.
    pose proof (Z.mod_pos_bound (len + page_size - 1) page_size ltac:(lia)) as Hmod.
    split; [nia|]. split; [apply Z.div_pos; lia|nia]. }
  split; [|split].
  - exists ((λ k : nat,
               ListResponse.mk true
                 (list_items (Z.of_nat k + 1) page_size type status db)
                 (Z.of_nat (length (list_items (Z.of_nat k + 1) page_size type status db)))
                 (Z.of_nat k + 1) page_size len total_pages)
            <$> seq 0 (Z.to_nat total_pages)).
    split.
    + apply Forall2_fmap_r, Forall_Forall2_diag, Forall_forall.
      intros k Hk%elem_of_seq. simpl. apply get_all_jewelry_ok; nia.
    + rewrite <- list_fmap_compose.
      rewrite (list_fmap_ext _ (λ k, take (Z.to_nat page_size)
                                      (drop (k * Z.to_nat page_size) ordered))).
      * rewrite concat_pages. apply take_ge. nia.
      * intros i k _. simpl. unfold list_items. fold ordered. do 2 f_equal. nia.
  - intros page Hpage Hskip. eexists. split; [apply get_all_jewelry_ok; nia|]. simpl.
    fold len. fold total_pages. split; [|split; [|done]].
    + unfold list_items. fold ordered. rewrite drop_ge by nia. apply take_nil.
    + unfold list_items. fold ordered. rewrite drop_ge by nia. by rewrite take_nil.
  - intros page Hskip. apply get_all_jewelry_overflow; lia.
Qed.

Lemma pages_cover_all_witness :
  0 < 20 < 2 ^ 63 ∧
  Z.of_nat (length (matching None (Some "active") (sample_db_of_size 45))) <= 2 ^ 63 ∧
  ∃ answers,
    Forall2 (λ k resp,
               get_all_jewelry (Z.of_nat k + 1) 20 None (Some "active")
                 (sample_db_of_size 45)
               = (Ok resp, sample_db_of_size 45))
            [0; 1; 2]%nat answers ∧
    concat (map ListResponse.items answers)
    = sorted_by (Some (JewelryDoc.created_at, -1))
        (matching None (Some "active") (sample_db_of_size 45)).
Proof.
  split; [lia|]. split; [by vm_compute|].
  exact (proj1 (pages_cover_all 20 None (Some "active") (sample_db_of_size 45)
                  ltac:(lia) ltac:(by vm_compute))).
Defined.

(** The three pages of 45 items by 20 hold 20, 20 and 5 items; page 4 is
    empty. *)
Example pages_of_45_by_20 :
  map (λ page, match (get_all_jewelry page 20 None (Some "active")
                        (sample_db_of_size 45)).1 with
               | Ok resp => Some (ListResponse.count resp)
               | Raise _ => None
               end)
      [1; 2; 3; 4]
  = [Some 20; Some 20; Some 5; Some 0].
Proof. by vm_compute. Qed.

(** ** SoftDelete *)

Lemma apply_update_archive now d :
  apply_update (SetFields [("status", VStr "archived"); ("updated_at", VDate now)]) d
  = archive now d.
Proof. reflexivity. Qed.

Lemma delete_jewelry_run env id db old :
  stored id db = Some old →
  ∃ l1 l2,
    jewelry_items db = l1 ++ old :: l2 ∧
    List.find (matches (by_item_id id)) l1 = None ∧
    delete_jewelry env id db
    = (Ok (MessageResponse.mk true "Jewelry item deleted successfully"),
       mkDB (l1 ++ archive (utcnow env) old :: l2) (analytics_events db)).
Proof.
  intros H. rewrite (delete_jewelry_found _ _ _ _ H).
  unfold stored in H.
  destruct (update_first_found (matches (by_item_id id))
              (apply_update (SetFields [("status", VStr "archived");
                                        ("updated_at", VDate (utcnow env))]))
              _ _ H) as (l1 & l2 & Hl & Hl1 & Hup).
  exists l1, l2. split; [exact Hl|]. split; [exact Hl1|].
  unfold update_one. cbn [snd]. by rewrite Hup, apply_update_archive.
Qed.

(** X10. SoftDelete of an existing item, whatever its current status,
    answers success and rewrites that one document only: its status becomes
    "archived" and its [updated_at] the clock reading of the call, every other
    field and every other document stay as they were, nothing is removed, and
    the item is still found by its id.  SoftDelete of an absent id answers 404
    and changes nothing. *)
Theorem delete_archives_in_place (env : Env) (id : string) (db : DB) :
  match stored id db with
  | Some old =>
      ∃ l1 l2 new,
        delete_jewelry env id db
        = (Ok (MessageResponse.mk true "Jewelry item deleted successfully"),
           mkDB (l1 ++ new :: l2) (analytics_events db)) ∧
        jewelry_items db = l1 ++ old :: l2 ∧
        stored id (mkDB (l1 ++ new :: l2) (analytics_events db)) = Some new ∧
        JewelryDoc.status new = VStr "archived" ∧
        JewelryDoc.updated_at new = utcnow env ∧
        new = archive (utcnow env) old ∧
        JewelryDoc.analytics new = JewelryDoc.analytics old ∧
        JewelryDoc.name new = JewelryDoc.name old ∧
        JewelryDoc.price new = JewelryDoc.price old ∧
        JewelryDoc.ar_config new = JewelryDoc.ar_config old
  | None =>
      delete_jewelry env id db
      = (Raise (HTTPException 404 (Msg "Jewelry item not found")), db)
  end.
Proof.
  destruct (stored id db) as [old|] eqn:H; [|by apply delete_jewelry_absent].
  destruct (delete_jewelry_run env id db old H) as (l1 & l2 & Hl & Hl1 & Hrun).
  exists l1, l2, (archive (utcnow env) old).
  split; [exact Hrun|]. split; [exact Hl|]. split; [|done].
  unfold stored. simpl. rewrite find_app_none by done. simpl.
  rewrite matches_by_item_id. simpl.
  by rewrite (stored_item_id _ _ _ H), String.eqb_refl.
Qed.

Lemma delete_archives_in_place_witness :
  ∃ l1 l2 new,
    delete_jewelry (sample_env 200) "AAAAAAAA" (mkDB [archive 150 sample_item] [])
    = (Ok (MessageResponse.mk true "Jewelry item deleted successfully"),
       mkDB (l1 ++ new :: l2) []) ∧
    JewelryDoc.status new = VStr "archived" ∧
    JewelryDoc.updated_at new = 200.
Proof.
  pose proof (delete_archives_in_place (sample_env 200) "AAAAAAAA"
                (mkDB [archive 150 sample_item] [])) as H.
  change (stored "AAAAAAAA" (mkDB [archive 150 sample_item] []))
    with (Some (archive 150 sample_item)) in H.
  destruct H as (l1 & l2 & new & Hrun & _ & _ & Hstatus & Hat & _).
  exists l1, l2, new. split; [exact Hrun|]. split; [exact Hstatus|exact Hat].
Defined.

(** X11. After SoftDelete the archived document is still in the catalog, no
    List call that filters on a status other than "archived" (the default
    "active" in particular) returns it, and a List call for page 1 with the
    status filter switched off and a page size that covers the catalog and is
    below [2 ^ 63], the largest limit the driver can send, does. *)
Theorem archived_hidden_from_default_list (env : Env) (id : string) (db : DB)
    (old : JewelryDoc.t) :
  stored id db = Some old →
  let db' := step env (ReqDelete id) db in
  let gone := archive (utcnow env) old in
  gone ∈ jewelry_items db' ∧
  (∀ page page_size type s resp db'',
     s ≠ "" → s ≠ "archived" →
     get_all_jewelry page page_size type (Some s) db' = (Ok resp, db'') →
     gone ∉ ListResponse.items resp) ∧
  (∀ page_size status,
     truthy status = false →
     Z.of_nat (length (jewelry_items db')) <= page_size < 2 ^ 63 →
     ∃ resp, get_all_jewelry 1 page_size None status db' = (Ok resp, db') ∧
             gone ∈ ListResponse.items resp).
Proof.
  intros H db' gone.
  destruct (delete_jewelry_run env id db old H) as (l1 & l2 & Hl & Hl1 & Hrun).
  assert (Hdb' : jewelry_items db' = l1 ++ gone :: l2).
  { subst db'. cbn [step]. by rewrite Hrun. }
  assert (Hin : gone ∈ jewelry_items db').
  { rewrite Hdb'. apply elem_of_app. right. by left. }
  split; [exact Hin|]. split.
  - intros page page_size type s resp db'' Hne Hna
      (_ & _ & _ & Hitems & _)%get_all_jewelry_ok_inv.
    rewrite Hitems. intros [_ Hm]%list_items_matching.
    apply andb_prop in Hm as [[_ Hs]%andb_prop _].
    unfold list_query, truthy in Hs. cbn [q_status] in Hs.
    destruct (eqb_string_spec s ""); [done|]. cbn [negb q_status] in Hs.
    apply is_str_eq in Hs. by injection Hs as <-.
  - intros page_size status Hstatus Hsize.
    assert (Hpos : 0 < page_size).
    { destruct Hsize as [Hsize _]. rewrite Hdb', length_app in Hsize.
      simpl in Hsize. lia. }
    eexists. split; [apply get_all_jewelry_ok; lia|]. simpl.
    unfold list_items. rewrite Z.mul_0_l. rewrite drop_0.
    destruct (sorted_by_descending JewelryDoc.created_at (matching None status db'))
      as [_ Hperm].
    rewrite take_ge.
    + rewrite Hperm. apply list_elem_of_filter. split; [|exact Hin].
      unfold matches, list_query. rewrite Hstatus. done.
    + rewrite (Permutation_length Hperm). unfold matching.
      pose proof (length_filter (λ d, matches (list_query None status) d = true)
                    (jewelry_items db')). lia.
Qed.

Lemma archived_hidden_from_default_list_witness :
  stored "AAAAAAAA" sample_db = Some sample_item ∧
  archive 200 sample_item
    ∈ jewelry_items (step (sample_env 200) (ReqDelete "AAAAAAAA") sample_db).
Proof.
  split; [reflexivity|].
  exact (proj1 (archived_hidden_from_default_list (sample_env 200) "AAAAAAAA" sample_db
                  sample_item eq_refl)).
Defined.

(** ** GetItemAnalytics *)

(** X12. GetItemAnalytics of an existing item writes nothing (unlike Get it
    counts no view) and answers with the item's name, its stored counters
    and the item's own events only: the 100 most recent ones (all of them
    when there are fewer), newest first.  For an absent id it answers 404. *)
Theorem item_analytics_spec (id : string) (db : DB) :
  match stored id db with
  | Some item =>
      ∃ resp rest,
        get_item_analytics id db = (Ok resp, db) ∧
        ItemAnalyticsResponse.success resp = true ∧
        ItemAnalyticsResponse.item_id resp = id ∧
        ItemAnalyticsResponse.item_name resp = JewelryDoc.name item ∧
        ItemAnalyticsResponse.stats resp = JewelryDoc.analytics item ∧
        ItemAnalyticsResponse.recent_events resp ++ rest ≡ₚ events_of id db ∧
        StronglySorted (descending EventDoc.timestamp)
          (ItemAnalyticsResponse.recent_events resp ++ rest) ∧
        length (ItemAnalyticsResponse.recent_events resp)
        = Nat.min 100 (length (events_of id db)) ∧
        (∀ x y, x ∈ ItemAnalyticsResponse.recent_events resp → y ∈ rest →
                EventDoc.timestamp y <= EventDoc.timestamp x) ∧
        (∀ x, x ∈ ItemAnalyticsResponse.recent_events resp →
              EventDoc.jewelry_id x = id ∧ x ∈ analytics_events db)
  | None =>
      get_item_analytics id db
      = (Raise (HTTPException 404 (Msg "Jewelry item not found")), db)
  end.
Proof.
  destruct (stored id db) as [item|] eqn:H; unfold stored in H.
  2: { unfold get_item_analytics, try_except, bind, find_one. by rewrite H. }
  destruct (sorted_by_descending EventDoc.timestamp (events_of id db)) as [Hsorted Hperm].
  set (ordered := sorted_by (Some (EventDoc.timestamp, -1)) (events_of id db)) in *.
  exists (ItemAnalyticsResponse.mk true id (JewelryDoc.name item)
            (JewelryDoc.analytics item) (take 100 ordered)), (drop 100 ordered).
  split.
  { unfold get_item_analytics, try_except, bind, find_one, sort, limit, to_list, ret,
      run_cursor, find. rewrite H. simpl.
    rewrite limited_positive, drop_0, take_take by lia. reflexivity. }
  simpl. rewrite take_drop. do 4 (split; [done|]).
  split; [exact Hperm|]. split; [exact Hsorted|]. split; [|split].
  - rewrite length_take, (Permutation_length Hperm). reflexivity.
  - intros x y. by apply descending_take_drop.
  - intros x Hx%subseteq_take. rewrite Hperm in Hx.
    apply list_elem_of_filter in Hx as [Hx Hin]. split; [|exact Hin].
    by apply String.eqb_eq.
Qed.

(** ** Create: round trips and refusals *)

(** X13. A successful Create can be read back: the created document is
    what a lookup by the returned [item_id] finds, the first Get of that id
    returns it unchanged with [views] still 0, and lookups of every other id
    find what they found before. *)
Theorem create_then_get (env : Env) (input : JewelryItemCreate.t) (db db1 : DB)
    (resp : ItemResponse.t) :
  create_jewelry env input db = (Ok resp, db1) →
  let doc := ItemResponse.item resp in
  stored (JewelryDoc.item_id doc) db1 = Some doc ∧
  (get_jewelry_by_id (JewelryDoc.item_id doc) db1).1 = Ok (ItemResponse.mk true None doc) ∧
  views_of doc = 0 ∧
  ∀ other, other ≠ JewelryDoc.item_id doc → stored other db1 = stored other db.
Proof.
  intros Hrun doc.
  pose proof (stored_after_create _ _ _ _ _ Hrun) as Hstored. fold doc in Hstored.
  split; [exact Hstored|]. split; [by rewrite (get_jewelry_by_id_found _ _ _ Hstored)|].
  pose proof (create_jewelry_inv _ _ _ _ _ Hrun)
    as (_ & Hitems & _ & _ & _ & _ & _ & _ & Ha & _).
  fold doc in Hitems, Ha. split; [unfold views_of; by rewrite Ha|].
  intros other Hne. unfold stored. rewrite Hitems.
  destruct (List.find (matches (by_item_id other)) (jewelry_items db)) as [x|] eqn:Hf.
  - apply find_split in Hf as (l1 & l2 & -> & Hx & Hl1).
    rewrite <- app_assoc, !find_app_none by done. simpl. by rewrite Hx.
  - rewrite find_app_none by done. simpl.
    rewrite matches_by_item_id. by destruct (eqb_string_spec (JewelryDoc.item_id doc) other).
Qed.

Lemma create_then_get_witness :
  create_jewelry (sample_env 100) sample_create empty_db = (Ok sample_response, sample_db) ∧
  (get_jewelry_by_id "AAAAAAAA" sample_db).1 = Ok (ItemResponse.mk true None sample_item).
Proof.
  split; [reflexivity|].
  exact (proj1 (proj2 (create_then_get (sample_env 100) sample_create empty_db sample_db
                         sample_response eq_refl))).
Defined.

(** X14. When the generated short code is already the [item_id] of a stored
    document, Create inserts nothing and answers 500: the unique index turns
    the insert into a duplicate-key error and the handler does not draw a
    second code. *)
Theorem create_refuses_used_id (env : Env) (input : JewelryItemCreate.t) (db : DB)
    (d : JewelryDoc.t) (a : ARConfigModel.t) :
  stored (generate_short_code env) db = Some d →
  JewelryItemCreate.get_ar_config input = Some a →
  create_jewelry env input db
  = (Raise (HTTPException 500 (StrOf (DuplicateKeyError "item_id"))), db).
Proof.
  unfold stored. intros Hd Ha.
  unfold create_jewelry, try_except, bind, insert_one. rewrite Ha. simpl.
  by rewrite Hd.
Qed.

Lemma create_refuses_used_id_witness :
  stored (generate_short_code (sample_env 300)) sample_db = Some sample_item ∧
  JewelryItemCreate.get_ar_config sample_create = Some ARConfigModel.new ∧
  create_jewelry (sample_env 300) sample_create sample_db
  = (Raise (HTTPException 500 (StrOf (DuplicateKeyError "item_id"))), sample_db).
Proof.
  split; [reflexivity|]. split; [reflexivity|].
  exact (create_refuses_used_id (sample_env 300) sample_create sample_db sample_item
           ARConfigModel.new eq_refl eq_refl).
Defined.

Lemma item_analytics_spec_witness :
  let db := step (sample_env 300) (ReqTrackEvent (sample_event "AAAAAAAA" SHARE))
              sample_db in
  ∃ resp,
    get_item_analytics "AAAAAAAA" db = (Ok resp, db) ∧
    length (ItemAnalyticsResponse.recent_events resp) = 1%nat.
Proof.
  pose proof (item_analytics_spec "AAAAAAAA"
                (step (sample_env 300) (ReqTrackEvent (sample_event "AAAAAAAA" SHARE))
                   sample_db)) as H.
  match type of H with
  | match ?s with _ => _ end =>
      change s with (Some (counted "EventType.SHAREs" sample_item)) in H
  end.
  destruct H as (resp & rest & Hrun & _ & _ & _ & _ & _ & _ & Hlen & _).
  exists resp. split; [exact Hrun|exact Hlen].
Defined.

(** ** Create: derived and defaulted fields *)

Lemma utf8_take_length (n : nat) (s : string) : (utf8_length (utf8_take n s) <= n)%nat.
Proof.
  revert n. induction s as [|c s IH]; intros n; simpl; [lia|].
  destruct (is_continuation c) eqn:Hc; simpl; rewrite ?Hc; [apply IH|].
  destruct n as [|n]; simpl; rewrite ?Hc; [lia|]. specialize (IH n). lia.
Qed.

Lemma utf8_take_prefix (n : nat) (s : string) : String.prefix (utf8_take n s) s = true.
Proof.
  revert n. induction s as [|c s IH]; intros n; simpl; [done|].
  destruct (is_continuation c); [|destruct n as [|n]; [done|]]; simpl;
    by destruct (Ascii.ascii_dec c c).
Qed.

Lemma utf8_take_all (n : nat) (s : string) :
  (utf8_length s <= n)%nat → utf8_take n s = s.
Proof.
  revert n. induction s as [|c s IH]; intros n; simpl; [done|].
  destruct (is_continuation c).
  - intros H. f_equal. by apply IH.
  - destruct n as [|n]; [lia|]. intros H. f_equal. apply IH. lia.
Qed.

(** A slice never cuts inside a character: what follows the slice starts with
    a leading byte. *)
Lemma utf8_take_boundary (n : nat) (s : string) :
  ∃ rest, s = utf8_take n s +:+ rest ∧
          match rest with
          | String c _ => is_continuation c = false
          | EmptyString => True
          end.
Proof.
  revert n. induction s as [|c s IH]; intros n; simpl; [by exists ""|].
  destruct (is_continuation c) eqn:Hc.
  - destruct (IH n) as (rest & Hs & Hrest). exists rest. split; [|done].
    change (String c s = String c (utf8_take n s +:+ rest)). by rewrite <- Hs.
  - destruct n as [|n].
    + exists (String c s). by rewrite Hc.
    + destruct (IH n) as (rest & Hs & Hrest). exists rest. split; [|done].
      change (String c s = String c (utf8_take n s +:+ rest)). by rewrite <- Hs.
Qed.

Lemma create_jewelry_payload env item db resp db' :
  create_jewelry env item db = (Ok resp, db') →
  let doc := ItemResponse.item resp in
  JewelryDoc.name doc = VStr (JewelryItemCreate.name item) ∧
  JewelryDoc.seo doc
  = VDict [("meta_title", VStr (JewelryItemCreate.name item +:+ " - Virtual Try-On"));
           ("meta_description",
            VStr (if truthy (JewelryItemCreate.get_description item)
                  then utf8_take 160
                         (default "" (JewelryItemCreate.get_description item))
                  else ""));
           ("keywords", VList [])] ∧
  JewelryDoc.metadata doc
  = VDict match JewelryItemCreate.get_metadata item with
          | Some m => MetadataModel.dict false m
          | None => []
          end ∧
  JewelryDoc.stock doc
  = VDict match JewelryItemCreate.get_stock item with
          | Some s => StockModel.dict false s
          | None => [("available", VBool true); ("quantity", VInt 0);
                     ("low_stock_threshold", VInt 3)]
          end ∧
  JewelryDoc.images doc
  = VDict [("thumbnail", VNull); ("main", VNull); ("gallery", VList [])].
Proof.
  unfold create_jewelry, try_except, bind, insert_one.
  destruct (JewelryItemCreate.get_ar_config item) as [a|]; simpl; [|done].
  destruct (List.find _ _); simpl; [done|].
  by intros [= <- <-].
Qed.

(** X15. The SEO block of a created item is derived from the request: the
    title is the name followed by " - Virtual Try-On", and the description is
    the first 160 characters (code points, not bytes) of the item
    description: never longer than 160 characters, always a prefix of the
    description that ends on a character boundary, the whole description when
    that has at most 160 characters, and the empty string when no description
    was given. *)
Theorem create_derives_seo (env : Env) (input : JewelryItemCreate.t) (db db' : DB)
    (resp : ItemResponse.t) :
  create_jewelry env input db = (Ok resp, db') →
  ∃ meta_description,
    JewelryDoc.seo (ItemResponse.item resp)
    = VDict [("meta_title", VStr (JewelryItemCreate.name input +:+ " - Virtual Try-On"));
             ("meta_description", VStr meta_description);
             ("keywords", VList [])] ∧
    (utf8_length meta_description <= 160)%nat ∧
    match JewelryItemCreate.get_description input with
    | Some d =>
        meta_description = utf8_take 160 d ∧
        String.prefix meta_description d = true ∧
        (∃ rest, d = meta_description +:+ rest ∧
                 match rest with
                 | String c _ => is_continuation c = false
                 | EmptyString => True
                 end) ∧
        ((utf8_length d <= 160)%nat → meta_description = d)
    | None => meta_description = ""
    end.
Proof.
  intros (_ & Hseo & _)%create_jewelry_payload.
  eexists. split; [exact Hseo|].
  destruct (JewelryItemCreate.get_description input) as [d|]; simpl.
  - destruct (eqb_string_spec d "") as [->|Hne]; simpl.
    + split; [lia|]. split; [done|]. split; [done|]. split; [by exists ""|done].
    + split; [apply utf8_take_length|]. split; [done|].
      split; [apply utf8_take_prefix|].
      split; [apply utf8_take_boundary|apply utf8_take_all].
  - split; [lia|done].
Qed.

Lemma create_derives_seo_witness :
  create_jewelry (sample_env 100) sample_create empty_db = (Ok sample_response, sample_db) ∧
  ∃ meta_description,
    JewelryDoc.seo sample_item
    = VDict [("meta_title", VStr "Ring - Virtual Try-On");
             ("meta_description", VStr meta_description);
             ("keywords", VList [])] ∧
    (utf8_length meta_description <= 160)%nat.
Proof.
  split; [reflexivity|].
  destruct (create_derives_seo (sample_env 100) sample_create empty_db sample_db
              sample_response eq_refl) as (md & Hseo & Hlen & _).
  exists md. split; [exact Hseo|exact Hlen].
Defined.

(** A description of 60 Devanagari letters, three bytes each, is kept whole,
    and one of 161 such letters is cut after the 160th. *)
Example meta_description_counts_characters :
  let ka := String (ascii_of_nat 224) (String (ascii_of_nat 164)
              (String (ascii_of_nat 149) EmptyString)) in
  let letters n := String.concat "" (repeat ka n) in
  (String.length (letters 60) = 180 ∧
   utf8_length (letters 60) = 60 ∧
   utf8_take 160 (letters 60) = letters 60 ∧
   utf8_take 160 (letters 161) = letters 160 ∧
   String.length (utf8_take 160 (letters 161)) = 480)%nat.
Proof. by vm_compute. Qed.

(** X16. Create treats a [null] in the optional blocks differently from an
    omitted block: [metadata: null] stores the empty object, while an omitted
    [metadata] stores the five default fields; [stock: null] and an omitted
    [stock] both store available = true, quantity = 0,
    low_stock_threshold = 3; [images] always starts empty. *)
Theorem create_null_blocks (env : Env) (input : JewelryItemCreate.t) (db db' : DB)
    (resp : ItemResponse.t) :
  create_jewelry env input db = (Ok resp, db') →
  let doc := ItemResponse.item resp in
  (JewelryItemCreate.metadata input = Given None → JewelryDoc.metadata doc = VDict []) ∧
  (JewelryItemCreate.metadata input = Unset →
   JewelryDoc.metadata doc
   = VDict [("material", VNull); ("weight", VNull); ("tags", VList []);
            ("category", VNull); ("subcategory", VNull)]) ∧
  (JewelryItemCreate.stock input = Given None ∨ JewelryItemCreate.stock input = Unset →
   JewelryDoc.stock doc
   = VDict [("available", VBool true); ("quantity", VInt 0);
            ("low_stock_threshold", VInt 3)]) ∧
  JewelryDoc.images doc
  = VDict [("thumbnail", VNull); ("main", VNull); ("gallery", VList [])].
Proof.
  intros (_ & _ & Hmeta & Hstock & Himages)%create_jewelry_payload doc.
  fold doc in Hmeta, Hstock, Himages.
  unfold JewelryItemCreate.get_metadata in Hmeta.
  unfold JewelryItemCreate.get_stock in Hstock.
  split; [intros H; by rewrite H in Hmeta|].
  split; [intros H; by rewrite H in Hmeta|].
  split; [intros [H|H]; by rewrite H in Hstock|exact Himages].
Qed.

Lemma create_null_blocks_witness :
  let input := JewelryItemCreate.mk "Ring" RING Unset sample_price (Given None) Unset
                 (Given None) in
  ∃ resp db',
    create_jewelry (sample_env 100) input empty_db = (Ok resp, db') ∧
    JewelryDoc.metadata (ItemResponse.item resp) = VDict [].
Proof.
  eexists _, _. split; [reflexivity|].
  refine (proj1 (create_null_blocks (sample_env 100)
                   (JewelryItemCreate.mk "Ring" RING Unset sample_price (Given None) Unset
                      (Given None)) empty_db _ _ eq_refl) eq_refl).
Defined.

(** ** Update: nested objects *)

(** X17. A nested object sent to Update replaces the stored object as a
    whole, and only the keys present in the request are written: an Update
    carrying [price: {amount: x}] leaves the stored price as [{amount: x}],
    so a [currency] or [discount] stored before is gone. *)
Theorem update_replaces_nested_object (env : Env) (id : string)
    (u : JewelryItemUpdate.t) (db : DB) (old : JewelryDoc.t) (p : PriceModel.t) :
  stored id db = Some old →
  JewelryItemUpdate.price u = Given (Some p) →
  ∃ new,
    (update_jewelry env id u db).1
    = Ok (ItemResponse.mk true (Some "Jewelry item updated successfully") new) ∧
    stored id (update_jewelry env id u db).2 = Some new ∧
    JewelryDoc.price new = VDict (PriceModel.dict true p) ∧
    (PriceModel.currency p = Unset → PriceModel.discount p = Unset →
     JewelryDoc.price new = VDict [("amount", VFloat (PriceModel.amount p))]).
Proof.
  intros H Hp.
  exists (merge_update u (utcnow env) old).
  rewrite (update_jewelry_found _ _ _ _ _ H). split; [done|].
  destruct (stored_after_update id
              (SetFields (JewelryItemUpdate.dict_exclude_unset u
                          ++ [("updated_at", VDate (utcnow env))])) db old H) as [Hs _].
  rewrite apply_update_set_fields in Hs. split; [exact Hs|].
  simpl. rewrite Hp. simpl. split; [done|].
  intros Hc Hd. unfold PriceModel.dict. by rewrite Hc, Hd.
Qed.

Lemma update_replaces_nested_object_witness :
  let u := JewelryItemUpdate.mk Unset Unset Unset
             (Given (Some (PriceModel.mk (5 # 1) Unset Unset))) Unset Unset Unset Unset in
  stored "AAAAAAAA" sample_db = Some sample_item ∧
  JewelryDoc.price sample_item
  = VDict [("amount", VFloat (10 # 1)); ("currency", VStr "NPR"); ("discount", VNull)] ∧
  ∃ new,
    stored "AAAAAAAA" (update_jewelry (sample_env 300) "AAAAAAAA" u sample_db).2 = Some new ∧
    JewelryDoc.price new = VDict [("amount", VFloat (5 # 1))].
Proof.
  split; [reflexivity|]. split; [reflexivity|].
  destruct (update_replaces_nested_object (sample_env 300) "AAAAAAAA"
              (JewelryItemUpdate.mk Unset Unset Unset
                 (Given (Some (PriceModel.mk (5 # 1) Unset Unset))) Unset Unset Unset Unset)
              sample_db sample_item (PriceModel.mk (5 # 1) Unset Unset) eq_refl eq_refl)
    as (new & _ & Hs & _ & Hprice).
  exists new. split; [exact Hs|]. by apply Hprice.
Defined.

(** ** Share links *)

Lemma strip_prefix_append (p s : string) : strip_prefix p (p +:+ s) = Some s.
Proof. induction p as [|c p IH]; simpl; [done|]. by rewrite Ascii.eqb_refl. Qed.

(** X18. A share link determines its short code: the full URL is the fixed
    try-on address followed by the code, the QR address is the fixed QR
    service address followed by that full URL, and two codes with the same
    full URL (or the same QR address) are the same code. *)
Theorem share_link_determines_code (a b : string) :
  ShareLink.short_code (create_share_link a) = a ∧
  strip_prefix "https://yoursite.com/try-on/" (ShareLink.full_url (create_share_link a))
  = Some a ∧
  ShareLink.qr_code (create_share_link a)
  = "https://api.qrserver.com/v1/create-qr-code/?size=200x200&data="
    +:+ ShareLink.full_url (create_share_link a) ∧
  (ShareLink.full_url (create_share_link a) = ShareLink.full_url (create_share_link b) →
   a = b) ∧
  (ShareLink.qr_code (create_share_link a) = ShareLink.qr_code (create_share_link b) →
   a = b).
Proof.
  split; [done|]. split; [apply strip_prefix_append|]. split; [done|]. split.
  - intros H.
    pose proof (strip_prefix_append "https://yoursite.com/try-on/" a) as Ha.
    pose proof (strip_prefix_append "https://yoursite.com/try-on/" b) as Hb.
    unfold create_share_link in H. cbn [ShareLink.full_url] in H.
    rewrite H, Hb in Ha. by injection Ha.
  - intros H.
    pose proof (strip_prefix_append
      "https://api.qrserver.com/v1/create-qr-code/?size=200x200&data=https://yoursite.com/try-on/"
      a) as Ha.
    pose proof (strip_prefix_append
      "https://api.qrserver.com/v1/create-qr-code/?size=200x200&data=https://yoursite.com/try-on/"
      b) as Hb.
    unfold create_share_link in H. cbn [ShareLink.qr_code] in H.
    rewrite H, Hb in Ha. by injection Ha.
Qed.

Lemma share_link_determines_code_witness :
  ShareLink.full_url (create_share_link "AAAAAAAA")
  = ShareLink.full_url (create_share_link "AAAAAAAA") ∧
  strip_prefix "https://yoursite.com/try-on/"
    (ShareLink.full_url (create_share_link "AAAAAAAA")) = Some "AAAAAAAA".
Proof.
  split; [reflexivity|].
  exact (proj1 (proj2 (share_link_determines_code "AAAAAAAA" "AAAAAAAA"))).
Defined.

(** ** database.py: startup *)

Lemma add_index_elem (ix x : MongoDB.Index) (existing : list MongoDB.Index) :
  x ∈ MongoDB.add_index ix existing ↔ x ∈ existing ∨ x = ix.
Proof.
  unfold MongoDB.add_index. destruct (decide (ix ∈ existing)) as [Hin|Hin].
  - split; [by left|]. intros [H| ->]; done.
  - rewrite elem_of_app, list_elem_of_singleton. done.
Qed.

Lemma create_each_spec (ok : MongoDB.Index → bool) (todo existing : list MongoDB.Index) :
  ∃ n : nat,
    (n <= length todo)%nat ∧
    (∀ x, x ∈ MongoDB.create_each ok todo existing ↔ x ∈ existing ∨ x ∈ take n todo) ∧
    (∀ x, x ∈ take n todo → ok x = true) ∧
    (n = length todo ∨ ∃ ix, todo !! n = Some ix ∧ ok ix = false).
Proof.
  revert existing. induction todo as [|ix todo IH]; intros existing; simpl.
  - exists 0%nat. split; [done|]. split; [|split; [|by left]].
    + intros x. rewrite elem_of_nil. tauto.
    + by intros x ?%elem_of_nil.
  - destruct (ok ix) eqn:Hix.
    + destruct (IH (MongoDB.add_index ix existing)) as (n & Hn & Hmem & Hok & Hstop).
      exists (S n). split; [lia|]. split; [|split].
      * intros x. rewrite Hmem, add_index_elem. simpl. rewrite elem_of_cons. tauto.
      * intros x. simpl. rewrite elem_of_cons. intros [->|Hx]; [done|by apply Hok].
      * destruct Hstop as [->|Hstop]; [by left|by right].
    + exists 0%nat. split; [lia|]. split; [|split].
      * intros x. simpl. rewrite elem_of_nil. tauto.
      * by intros x ?%elem_of_nil.
      * right. by exists ix.
Qed.

(** X19. [create_indexes] never fails, never drops an existing index, and
    issues its nine [create_index] calls in order until the first one that
    raises: the indexes present afterwards are the ones present before plus
    the calls before that point, so one failing call silently leaves every
    later index uncreated; when the first call (the unique index on
    [item_id]) raises, nothing is created at all. *)
Theorem create_indexes_stops_at_first_failure (srv : MongoDB.Server) :
  let after := MongoDB.indexes (MongoDB.create_indexes srv) in
  ∃ n : nat,
    (n <= 9)%nat ∧
    (∀ x, x ∈ after ↔ x ∈ MongoDB.indexes srv ∨ x ∈ take n MongoDB.wanted) ∧
    (∀ x, x ∈ take n MongoDB.wanted → MongoDB.create_index_ok srv x = true) ∧
    (n = 9%nat ∨
     ∃ ix, MongoDB.wanted !! n = Some ix ∧ MongoDB.create_index_ok srv ix = false) ∧
    ((∀ x, x ∈ MongoDB.wanted → MongoDB.create_index_ok srv x = true) → n = 9%nat) ∧
    (MongoDB.create_index_ok srv
       (MongoDB.mkIndex "jewelry_items" [("item_id", 1)] true) = false →
     after = MongoDB.indexes srv).
Proof.
  intros after.
  destruct (create_each_spec (MongoDB.create_index_ok srv) MongoDB.wanted
              (MongoDB.indexes srv)) as (n & Hn & Hmem & Hok & Hstop).
  exists n. split; [exact Hn|]. split; [exact Hmem|]. split; [exact Hok|].
  split; [exact Hstop|]. split.
  - intros Hall. destruct Hstop as [->|(ix & Hix & Hfail)]; [done|].
    rewrite Hall in Hfail; [done|]. by eapply list_elem_of_lookup_2.
  - intros Hfail. subst after. unfold MongoDB.create_indexes. simpl. by rewrite Hfail.
Qed.

Lemma create_indexes_stops_at_first_failure_witness :
  let srv := MongoDB.mkServer true (λ ix, negb (MongoDB.unique ix)) [] in
  MongoDB.create_index_ok srv (MongoDB.mkIndex "jewelry_items" [("item_id", 1)] true)
  = false ∧
  MongoDB.indexes (MongoDB.create_indexes srv) = [].
Proof.
  split; [reflexivity|].
  destruct (create_indexes_stops_at_first_failure
              (MongoDB.mkServer true (λ ix, negb (MongoDB.unique ix)) []))
    as (n & _ & _ & _ & _ & _ & H).
  exact (H eq_refl).
Defined.

(** Only the first call succeeds: one index, the unique one. *)
Example create_indexes_unique_only :
  MongoDB.indexes
    (MongoDB.create_indexes (MongoDB.mkServer true (λ ix, MongoDB.unique ix) []))
  = [MongoDB.mkIndex "jewelry_items" [("item_id", 1)] true].
Proof. reflexivity. Qed.

(** X20. [connect_db] fails exactly when the ping fails; a failure while
    creating indexes does not make startup fail, so the service can come up
    without the unique index on [item_id].  In either case the class
    attributes are already assigned, so [get_db] returns the database handle
    even after a failed connect, and no index is touched when the ping
    fails. *)
Theorem connect_db_outcome (url name : string) (srv : MongoDB.Server) (st : MongoDB.t) :
  let out := MongoDB.connect_db url name srv st in
  (out.1.1 = MongoDB.Connected ↔ MongoDB.ping_ok srv = true) ∧
  MongoDB.get_db out.1.2 = Some name ∧
  (MongoDB.ping_ok srv = false → MongoDB.indexes out.2 = MongoDB.indexes srv) ∧
  (MongoDB.ping_ok srv = true →
   MongoDB.create_index_ok srv (MongoDB.mkIndex "jewelry_items" [("item_id", 1)] true)
   = false →
   out.1.1 = MongoDB.Connected ∧ MongoDB.indexes out.2 = MongoDB.indexes srv).
Proof.
  intros out. subst out. unfold MongoDB.connect_db.
  destruct (MongoDB.ping_ok srv); simpl.
  - split; [done|]. split; [done|]. split; [done|].
    intros _ Hfail. split; [done|]. by rewrite Hfail.
  - split; [done|]. split; [done|]. split; done.
Qed.

Lemma connect_db_outcome_witness :
  let srv := MongoDB.mkServer true (λ _, false) [] in
  (MongoDB.connect_db "mongodb://localhost:27017" "jewelry_ar_db" srv MongoDB.initial).1.1
  = MongoDB.Connected ∧
  MongoDB.indexes
    (MongoDB.connect_db "mongodb://localhost:27017" "jewelry_ar_db" srv MongoDB.initial).2
  = [].
Proof.
  exact (proj2 (proj2 (proj2 (connect_db_outcome "mongodb://localhost:27017" "jewelry_ar_db"
                                (MongoDB.mkServer true (λ _, false) []) MongoDB.initial)))
           eq_refl eq_refl).
Defined.

(** ** SoftDelete and Get *)

(** X21. SoftDelete does not take an item out of reach of Get: after it, Get
    by the same id still answers success with the archived document and
    still counts the view. *)
Theorem get_serves_archived_item (env : Env) (id : string) (db : DB) (old : JewelryDoc.t) :
  stored id db = Some old →
  let db' := (delete_jewelry env id db).2 in
  let out := get_jewelry_by_id id db' in
  out.1 = Ok (ItemResponse.mk true None (archive (utcnow env) old)) ∧
  ∃ after,
    stored id out.2 = Some after ∧
    JewelryDoc.status after = VStr "archived" ∧
    views_of after = views_of old + 1.
Proof.
  intros H db' out.
  destruct (delete_jewelry_run env id db old H) as (l1 & l2 & Hl & Hl1 & Hrun).
  assert (Hs : stored id db' = Some (archive (utcnow env) old)).
  { subst db'. rewrite Hrun. unfold stored. simpl.
    rewrite find_app_none by done. simpl. rewrite matches_by_item_id. simpl.
    by rewrite (stored_item_id _ _ _ H), String.eqb_refl. }
  subst out. split; [by rewrite (get_jewelry_by_id_found _ _ _ Hs)|].
  rewrite (get_jewelry_by_id_found _ _ _ Hs).
  destruct (stored_after_update id (Inc "analytics.views" 1) db' _ Hs) as [Hafter _].
  eexists. split; [exact Hafter|]. split; [done|]. by rewrite inc_views.
Qed.

Lemma get_serves_archived_item_witness :
  stored "AAAAAAAA" sample_db = Some sample_item ∧
  (get_jewelry_by_id "AAAAAAAA" (delete_jewelry (sample_env 200) "AAAAAAAA" sample_db).2).1
  = Ok (ItemResponse.mk true None (archive 200 sample_item)).
Proof.
  split; [reflexivity|].
  exact (proj1 (get_serves_archived_item (sample_env 200) "AAAAAAAA" sample_db sample_item
                  eq_refl)).
Defined.
